(** * YoutubeDL front-end: the batch worker and the task parser of [youtube.py]

    A shallow embedding of [src/youtube.py].  The program is glue around two
    external tools (the yt_dlp extractor and the ffmpeg transcoder), so the
    embedding is an explicit trace semantics: every call that leaves the
    program (signal emission, log write, downloader call, process spawn,
    dialog) is an [Event], and everything the outside world decides (can
    the output directory be created, does the cookies file exist, what
    does the downloader report and return, what does the transcoder print)
    is read from an environment value.

    Python values are modelled as follows.
    - [str] is a list of Unicode code points ([pystr]); the whitespace and
      line-break tables are CPython's.
    - [int] is [Z]; the one float computation of the program
      ([int(a / b * 100)]) is evaluated on IEEE binary64 with [SpecFloat].
    - an exception is the text that [str(e)] returns for it; only
      exceptions derived from [Exception] are considered.
    - [os.path.join] is the POSIX one.

    Environment assumptions: external calls terminate, and a write to
    the already open log file succeeds.  The creation of the output
    directory at the top of [run] is outside the [try] block and may
    fail; that failure is part of the model.  The percentage of a
    progress signal is emitted as a Python [int] and reaches the slot as
    the 32-bit C [int] that [pyqtSignal(int, str)] carries. *)

From Stdlib Require Import ZArith NArith Bool Ascii String List Lia.
From Stdlib Require Import Floats.SpecFloat.
Import ListNotations.
Local Open Scope list_scope.

(* ================================================================== *)
(** ** Python strings *)

Module PyStr.

(** A Python [str]: the sequence of its code points. *)
Definition pystr := list N.

(** Reading a literal of this file (UTF-8 bytes) as code points. *)
Fixpoint utf8_decode (s : string) : pystr :=
  match s with
  | EmptyString => []
  | String a s1 =>
      let n := N_of_ascii a in
      if (n <? 128)%N then n :: utf8_decode s1
      else if (n <? 224)%N then
        match s1 with
        | String b s2 =>
            ((n - 192) * 64 + (N_of_ascii b - 128))%N :: utf8_decode s2
        | EmptyString => []
        end
      else if (n <? 240)%N then
        match s1 with
        | String b (String c s3) =>
            ((n - 224) * 4096 + (N_of_ascii b - 128) * 64
             + (N_of_ascii c - 128))%N :: utf8_decode s3
        | _ => []
        end
      else
        match s1 with
        | String b (String c (String d s4)) =>
            ((n - 240) * 262144 + (N_of_ascii b - 128) * 4096
             + (N_of_ascii c - 128) * 64 + (N_of_ascii d - 128))%N
            :: utf8_decode s4
        | _ => []
        end
  end.

Definition u (s : string) : pystr := utf8_decode s.

#[global] Arguments u s : simpl never.

(** [a == b] on two [str]s. *)
Fixpoint pystr_eqb (a b : pystr) : bool :=
  match a, b with
  | [], [] => true
  | x :: a', y :: b' => (x =? y)%N && pystr_eqb a' b'
  | _, _ => false
  end.

(** Truthiness of a [str]: the empty string is falsy. *)
Definition truthy (s : pystr) : bool :=
  match s with [] => false | _ :: _ => true end.

(** Truthiness of a value that is [None] or a [str]. *)
Definition truthy_opt (o : option pystr) : bool :=
  match o with None => false | Some s => truthy s end.

(** [a or b] where [a] is [None] or a [str] and [b] is a [str]. *)
Definition or_else (a : option pystr) (b : pystr) : pystr :=
  match a with
  | Some s => if truthy s then s else b
  | None => b
  end.

(** [str.isspace] on one code point (CPython's [_PyUnicode_IsWhitespace]). *)
Definition isspace (c : N) : bool :=
  ((9 <=? c) && (c <=? 13) || (28 <=? c) && (c <=? 32)
   || (c =? 133) || (c =? 160) || (c =? 5760)
   || (8192 <=? c) && (c <=? 8202)
   || (c =? 8232) || (c =? 8233) || (c =? 8239) || (c =? 8287)
   || (c =? 12288))%N.

(** Line boundaries of [str.splitlines] (CPython's [_PyUnicode_IsLinebreak]). *)
Definition is_linebreak (c : N) : bool :=
  ((10 <=? c) && (c <=? 13) || (28 <=? c) && (c <=? 30)
   || (c =? 133) || (c =? 8232) || (c =? 8233))%N.

Fixpoint lstrip (s : pystr) : pystr :=
  match s with
  | [] => []
  | c :: rest => if isspace c then lstrip rest else s
  end.

Definition rstrip (s : pystr) : pystr := rev (lstrip (rev s)).

(** [s.strip()] *)
Definition strip (s : pystr) : pystr := rstrip (lstrip s).

(** [s.splitlines()]: [cur] holds the current line, reversed.  A line is
    emitted at every boundary; what follows the last boundary is emitted
    only when it is not empty; CR LF is one boundary. *)
Fixpoint splitlines_from (cur : pystr) (s : pystr) : list pystr :=
  match s with
  | [] => match cur with [] => [] | _ :: _ => [rev cur] end
  | c :: rest =>
      if is_linebreak c then
        if (c =? 13)%N then
          match rest with
          | c' :: rest' =>
              if (c' =? 10)%N then rev cur :: splitlines_from [] rest'
              else rev cur :: splitlines_from [] rest
          | [] => rev cur :: splitlines_from [] rest
          end
        else rev cur :: splitlines_from [] rest
      else splitlines_from (c :: cur) rest
  end.

Definition splitlines (s : pystr) : list pystr := splitlines_from [] s.

(** [s.split(sep, maxsplit=1)] for a separator of one code point: the
    text before the first [sep] and the text after it, or [s] alone. *)
Fixpoint split_once (sep : N) (s : pystr) : list pystr :=
  match s with
  | [] => [[]]
  | c :: rest =>
      if (c =? sep)%N then [[]; rest]
      else match split_once sep rest with
           | [a] => [c :: a]
           | a :: more => (c :: a) :: more
           | [] => [[c]]
           end
  end.

Fixpoint starts_with (p s : pystr) : bool :=
  match p, s with
  | [], _ => true
  | _ :: _, [] => false
  | a :: p', b :: s' => (a =? b)%N && starts_with p' s'
  end.

(** [p in s] *)
Fixpoint contains (p s : pystr) : bool :=
  starts_with p s ||
  match s with
  | [] => false
  | _ :: s' => contains p s'
  end.

(** Decimal digits of a natural number, as [str(n)] prints them. *)
Fixpoint digits_fuel (fuel : nat) (n : N) (acc : pystr) : pystr :=
  match fuel with
  | O => acc
  | S f =>
      let acc' := (48 + n mod 10)%N :: acc in
      if (n <? 10)%N then acc' else digits_fuel f (n / 10)%N acc'
  end.

Definition str_of_N (n : N) : pystr := digits_fuel (S (N.to_nat (N.log2 n))) n [].

Definition str_of_nat (n : nat) : pystr := str_of_N (N.of_nat n).

(** [str(z)] for an [int]. *)
Definition str_of_Z (z : Z) : pystr :=
  match z with
  | Zneg p => 45%N :: str_of_N (Npos p)
  | _ => str_of_N (Z.to_N z)
  end.

Definition nl : pystr := [10%N].

Definition ends_with (p s : pystr) : bool := starts_with (rev p) (rev s).

(** [sep.join(parts)] *)
Fixpoint join (sep : pystr) (parts : list pystr) : pystr :=
  match parts with
  | [] => []
  | [p] => p
  | p :: more => p ++ sep ++ join sep more
  end.

End PyStr.
Import PyStr.

(* ================================================================== *)
(** ** Exceptions and the numbers of the progress hook *)

(** An exception, identified with the text [str(e)] gives for it. *)
Inductive PyExc := Exception (text : pystr).

Definition str_of_exc (e : PyExc) : pystr :=
  match e with Exception text => text end.

(** A value stored in the dictionary that the downloader hands to a
    progress hook: [None] or an [int]. *)
Inductive PyVal := VNone | VInt (z : Z).

Module PyNum.

Definition prec : Z := 53.
Definition emax : Z := 1024.

Definition float_of_small_int (z : Z) : spec_float :=
  binary_normalize prec emax z 0 false.

(** [a / b] on two [int]s: the correctly rounded binary64 quotient. *)
Definition true_div (a b : Z) : PyExc + spec_float :=
  let as_ratio (z : Z) :=
    match z with
    | Z0 => S754_zero false
    | Zpos p => S754_finite false p 0
    | Zneg p => S754_finite true p 0
    end in
  if (b =? 0)%Z then inl (Exception (u "division by zero"))
  else
    match SFdiv prec emax (as_ratio a) (as_ratio b) with
    | S754_infinity _ | S754_nan =>
        inl (Exception (u "integer division result too large for a float"))
    | q => inr q
    end.

(** [int(x)] on a float: truncation towards zero. *)
Definition int_of_float (x : spec_float) : PyExc + Z :=
  match x with
  | S754_zero _ => inr 0%Z
  | S754_infinity _ =>
      inl (Exception (u "cannot convert float infinity to integer"))
  | S754_nan => inl (Exception (u "cannot convert float NaN to integer"))
  | S754_finite s m e =>
      let mag := if (0 <=? e)%Z then Z.shiftl (Zpos m) e
                 else Z.shiftr (Zpos m) (- e) in
      inr (if s then (- mag)%Z else mag)
  end.

(** [max(v, 1)] *)
Definition max_with_1 (v : PyVal) : PyExc + Z :=
  match v with
  | VInt z => inr (Z.max z 1)
  | VNone =>
      inl (Exception
             (u "'>' not supported between instances of 'int' and 'NoneType'"))
  end.

(** [int(a / max(b, 1) * 100)] *)
Definition percent_of (a b : PyVal) : PyExc + Z :=
  match max_with_1 b with
  | inl e => inl e
  | inr m =>
      match a with
      | VNone =>
          inl (Exception
                 (u "unsupported operand type(s) for /: 'NoneType' and 'int'"))
      | VInt x =>
          match true_div x m with
          | inl e => inl e
          | inr q => int_of_float (SFmul prec emax q (float_of_small_int 100))
          end
      end
  end.

(** A Python [int] as the C [int] argument of a signal receives it:
    taken modulo [2^32] into [-2^31 .. 2^31 - 1]. *)
Definition c_int (z : Z) : Z :=
  ((z + 2 ^ 31) mod 2 ^ 32 - 2 ^ 31)%Z.

End PyNum.

(* ================================================================== *)
(** ** Paths and timestamps *)

(** [os.path.join(a, b)], POSIX flavour. *)
Definition os_path_join (a b : pystr) : pystr :=
  if starts_with (u "/") b then b
  else if negb (truthy a) || ends_with (u "/") a then a ++ b
  else a ++ u "/" ++ b.

(** What [datetime.now()] returned. *)
Record DateTime := {
  year : N; month : N; day : N;
  hour : N; minute : N; second : N; microsecond : N
}.

(** A decimal number padded with zeros on the left to [width] digits. *)
Definition zero_padded (width : nat) (n : N) : pystr :=
  let digits := str_of_N n in
  repeat 48%N (width - length digits) ++ digits.

(** [now.strftime("%Y%m%d_%H%M%S")] *)
Definition strftime_file (now : DateTime) : pystr :=
  zero_padded 4 (year now) ++ zero_padded 2 (month now)
  ++ zero_padded 2 (day now) ++ u "_" ++ zero_padded 2 (hour now)
  ++ zero_padded 2 (minute now) ++ zero_padded 2 (second now).

(* ================================================================== *)
(** ** Data of the worker *)

(** One entry of the task list: [(url, filename)], the file name being
    [None] when the input line had no comma. *)
Abbreviation Task := (pystr * option pystr)%type.

(** An open text file, identified by the path it was opened at. *)
Record LogFile := { log_path : pystr }.

(** The fields of a [DownloadThread] object. *)
Record DownloadThread := {
  tasks : list Task;
  output_dir : pystr;
  to_mp3 : bool;
  cookies_file : option pystr;
  log_file : option LogFile
}.

(** The closure [progress_hook] created in one iteration: its code is
    fixed, its captured variables are [filename] and [idx] (and [self]). *)
Record HookClosure := { hook_filename : option pystr; hook_idx : nat }.

(** The dictionary [ydl_opts]; [cookiefile = None] stands for the key
    being absent. *)
Record YdlOpts := {
  format : pystr;
  outtmpl : pystr;
  merge_output_format : pystr;
  noplaylist : bool;
  quiet : bool;
  progress_hooks : list HookClosure;
  cookiefile : option pystr
}.

(** Everything the program does that is visible outside of it. *)
Inductive Event :=
| Makedirs (path : pystr)
    (* os.makedirs(path, exist_ok=True) *)
| OpenForWriting (path : pystr)
    (* open(path, "w", encoding="utf-8") *)
| ExtractInfo (opts : YdlOpts) (url : pystr)
    (* yt_dlp.YoutubeDL(opts).extract_info(url, download=True) *)
| Popen (cmd : list pystr)
    (* subprocess.Popen(cmd, stdout=PIPE, stderr=STDOUT, text=True) *)
| ProcessWait
    (* process.wait() *)
| ProgressUpdate (percent : Z) (message : pystr)
    (* self.progress_update.emit(percent, message) *)
| FinishedSignal (results : list pystr)
    (* self.finished_signal.emit(results) *)
| LogLine (f : LogFile) (message : pystr)
    (* f.write("[<now>] <message>\n"); f.flush() *)
| LogText (f : LogFile) (text : pystr)
    (* f.write(text); f.flush() *)
| ErrorBox (title text : pystr)
    (* QMessageBox.critical *)
| InfoBox (title text : pystr)
    (* QMessageBox.information *)
| ProgressDialogShown
| ProgressDialogClosed
| ProgressBarSet (value : Z) (fmt : pystr).
    (* progress_bar.setValue(value); progress_bar.setFormat(fmt) *)

(* ================================================================== *)
(** ** The environment of one run *)

(** The dictionary a progress hook receives.  The downloader always sets
    ['status']; the two byte counts may be absent, [None] or an [int]. *)
Record HookDict := {
  status : pystr;
  downloaded_bytes : option PyVal;
  total_bytes : option PyVal
}.

(** [d.get(key, default)] *)
Definition dict_get (entry : option PyVal) (default : Z) : PyVal :=
  match entry with Some v => v | None => VInt default end.

(** What [extract_info] returned: [None] or a dictionary, of which only
    the ['title'] entry is read. *)
Inductive InfoResult := InfoNone | InfoDict (title : option pystr).

(** The behaviour of one [extract_info] call: it reports progress to the
    hook any number of times (and may react to an exception of the hook),
    then returns or raises. *)
Inductive Downloader :=
| Returns (info : InfoResult)
| Raises (e : PyExc)
| Reports (d : HookDict) (next : option PyExc -> Downloader).

(** The behaviour of one transcoder process: it cannot be started, or it
    prints lines on its standard output, the reading of which may break
    off with an exception. *)
Inductive Transcoder :=
| SpawnFails (e : PyExc)
| Prints (lines : list pystr) (read_error : option PyExc).

(** What the [idx]-th iteration of the loop meets. *)
Record ItemEnv := {
  cookies_exist : bool;        (* os.path.exists(self.cookies_file) *)
  downloader : Downloader;
  transcoder : Transcoder
}.

Record RunEnv := {
  makedirs_error : option PyExc;  (* os.makedirs(self.output_dir) *)
  item_env : nat -> ItemEnv
}.

(* ================================================================== *)
(** ** [DownloadThread]: the worker *)

Module Worker.

(** [DownloadThread.log]: one line when a log file was given. *)
Definition log (self : DownloadThread) (message : pystr) : list Event :=
  match log_file self with
  | Some f => [LogLine f message]
  | None => []
  end.

(** The text [" (idx/len(self.tasks))"] that closes several messages. *)
Definition position (self : DownloadThread) (idx : nat) : pystr :=
  u " (" ++ str_of_nat idx ++ u "/" ++ str_of_nat (length (tasks self))
  ++ u ")".

(** [progress_hook(d)]: the events of one call and the exception it
    leaves with, if any. *)
Definition progress_hook (self : DownloadThread) (filename : option pystr)
    (idx : nat) (d : HookDict) : list Event * option PyExc :=
  if pystr_eqb (status d) (u "downloading") then
    match PyNum.percent_of (dict_get (downloaded_bytes d) 0)
                           (dict_get (total_bytes d) 1) with
    | inl e => ([], Some e)
    | inr percent =>
        let msg := u "Downloading " ++ or_else filename (u "video")
                   ++ position self idx in
        (ProgressUpdate percent msg :: log self msg, None)
    end
  else if pystr_eqb (status d) (u "finished") then
    let msg := u "Download finished: " ++ or_else filename (u "video")
               ++ position self idx in
    (ProgressUpdate 100 msg :: log self msg, None)
  else ([], None).

(** The dictionary built at the top of the [try] block, with the
    [cookiefile] entry added when the cookies file is given and exists. *)
Definition ydl_opts (self : DownloadThread) (filename : option pystr)
    (idx : nat) (exists_ : bool) : YdlOpts :=
  {| format := u "bestvideo+bestaudio/best";
     outtmpl :=
       match filename with
       | Some name =>
           if truthy name
           then os_path_join (output_dir self) (name ++ u ".%(ext)s")
           else os_path_join (output_dir self) (u "%(title)s.%(ext)s")
       | None => os_path_join (output_dir self) (u "%(title)s.%(ext)s")
       end;
     merge_output_format := u "mp4";
     noplaylist := true;
     quiet := true;
     progress_hooks :=
       [{| hook_filename := filename; hook_idx := idx |}];
     cookiefile :=
       if truthy_opt (cookies_file self) && exists_
       then cookies_file self else None |}.

(** [ydl.extract_info(url, download=True)]: the downloader calls the hook
    as its behaviour says, then returns or raises. *)
Fixpoint extract_info (hook : HookDict -> list Event * option PyExc)
    (behaviour : Downloader) : list Event * (PyExc + InfoResult) :=
  match behaviour with
  | Returns info => ([], inr info)
  | Raises e => ([], inl e)
  | Reports d next =>
      let '(ev, raised) := hook d in
      let '(ev', outcome) := extract_info hook (next raised) in
      (ev ++ ev', outcome)
  end.

(** [title = filename or info.get('title', 'output')] *)
Definition title_of (filename : option pystr) (info : InfoResult)
  : PyExc + pystr :=
  if truthy_opt filename then inr (or_else filename [])
  else
    match info with
    | InfoNone =>
        inl (Exception (u "'NoneType' object has no attribute 'get'"))
    | InfoDict (Some t) => inr t
    | InfoDict None => inr (u "output")
    end.

(** [for line in process.stdout]: one report per line with ["time="]. *)
Fixpoint scan_stdout (self : DownloadThread) (idx : nat) (title : pystr)
    (lines : list pystr) : list Event :=
  match lines with
  | [] => []
  | line :: more =>
      (if contains (u "time=") line then
         let msg := u "Converting " ++ title ++ u " to MP3"
                    ++ position self idx in
         ProgressUpdate 50 msg :: log self msg
       else [])
      ++ scan_stdout self idx title more
  end.

Definition ffmpeg_cmd (mp4_file mp3_file : pystr) : list pystr :=
  [u "ffmpeg"; u "-i"; mp4_file; u "-vn"; u "-ab"; u "192k";
   u "-ar"; u "44100"; u "-y"; mp3_file].

(** The body of [if self.to_mp3:]; on success the value of [mp3_file]. *)
Definition convert (self : DownloadThread) (idx : nat) (title : pystr)
    (mp4_file : pystr) (behaviour : Transcoder)
  : list Event * (PyExc + pystr) :=
  let mp3_file := os_path_join (output_dir self) (title ++ u ".mp3") in
  let cmd := ffmpeg_cmd mp4_file mp3_file in
  match behaviour with
  | SpawnFails e => ([Popen cmd], inl e)
  | Prints lines (Some e) =>
      (Popen cmd :: scan_stdout self idx title lines, inl e)
  | Prints lines None =>
      let msg := u "Conversion finished: " ++ title in
      (Popen cmd :: scan_stdout self idx title lines
       ++ ProcessWait :: ProgressUpdate 100 msg :: log self msg,
       inr mp3_file)
  end.

(** The [try] block of one iteration: its events, and either the
    exception that left it or the values of [mp4_file] and [mp3_file]
    it ended with. *)
Definition try_body (self : DownloadThread) (idx : nat) (task : Task)
    (env : ItemEnv) : list Event * (PyExc + pystr * option pystr) :=
  let '(url, filename) := task in
  let opts := ydl_opts self filename idx (cookies_exist env) in
  let '(ev_dl, got) :=
    extract_info (progress_hook self filename idx) (downloader env) in
  let ev1 := ExtractInfo opts url :: ev_dl in
  match got with
  | inl e => (ev1, inl e)
  | inr info =>
      match title_of filename info with
      | inl e => (ev1, inl e)
      | inr title =>
          let mp4_file :=
            os_path_join (output_dir self) (title ++ u ".mp4") in
          if to_mp3 self then
            match convert self idx title mp4_file (transcoder env) with
            | (ev2, inl e) => (ev1 ++ ev2, inl e)
            | (ev2, inr mp3_file) =>
                (ev1 ++ ev2, inr (mp4_file, Some mp3_file))
            end
          else (ev1, inr (mp4_file, None))
      end
  end.

(** The string appended to [results] after a successful [try] block. *)
Definition success_text (mp4_file : pystr) (mp3_file : option pystr)
  : pystr :=
  mp4_file ++
  match mp3_file with
  | Some p => if truthy p then nl ++ p else []
  | None => []
  end.

Definition app_only_marker : pystr :=
  u "The following content is not available on this app".

Definition app_only_hint : pystr :=
  nl ++ nl ++ u "この動画はYouTubeのアプリ限定コンテンツです。" ++ nl
  ++ u "cookies.txt を使用してログイン状態を反映するとダウンロード可能になる場合があります。".

(** [err_msg] as the handler leaves it. *)
Definition err_msg_of (e : PyExc) : pystr :=
  let err_msg := str_of_exc e in
  if contains app_only_marker err_msg then err_msg ++ app_only_hint
  else err_msg.

(** The string appended to [results] by the handler. *)
Definition error_text (url : pystr) (e : PyExc) : pystr :=
  u "URL: " ++ url ++ u " でエラー発生: " ++ err_msg_of e.

(** The line the handler logs. *)
Definition error_log (url : pystr) (e : PyExc) : pystr :=
  u "ERROR: URL " ++ url ++ u " - " ++ err_msg_of e.

(** One iteration of the loop: [try] block and [except Exception]
    handler.  Returns the events and the string appended to [results]. *)
Definition run_item (self : DownloadThread) (idx : nat) (task : Task)
    (env : ItemEnv) : list Event * pystr :=
  match try_body self idx task env with
  | (ev, inr (mp4_file, mp3_file)) => (ev, success_text mp4_file mp3_file)
  | (ev, inl e) =>
      (ev ++ log self (error_log (fst task) e), error_text (fst task) e)
  end.

(** [enumerate(l, start)] *)
Fixpoint enumerate {A : Type} (l : list A) (start : nat) : list (nat * A) :=
  match l with
  | [] => []
  | x :: more => (start, x) :: enumerate more (S start)
  end.

(** The [for] loop, [results] being the list built so far. *)
Fixpoint for_each (self : DownloadThread) (env : RunEnv)
    (items : list (nat * Task)) (results : list pystr)
  : list Event * list pystr :=
  match items with
  | [] => ([], results)
  | (idx, task) :: more =>
      let '(ev, r) := run_item self idx task (item_env env idx) in
      let '(ev', results') := for_each self env more (results ++ [r]) in
      (ev ++ ev', results')
  end.

(** [DownloadThread.run]: the events of the run, and the exception that
    ended it when one escaped. *)
Definition run (self : DownloadThread) (env : RunEnv)
  : list Event * option PyExc :=
  match makedirs_error env with
  | Some e => ([Makedirs (output_dir self)], Some e)
  | None =>
      let '(ev, results) :=
        for_each self env (enumerate (tasks self) 1) [] in
      (Makedirs (output_dir self) :: ev ++ [FinishedSignal results], None)
  end.

End Worker.

(* ================================================================== *)
(** ** [YouTubeDownloader]: the window *)

Module Gui.

(** [create_logger(output_dir)], [now] being what [datetime.now()] gave. *)
Definition create_logger (now : DateTime) (output_dir : pystr)
  : list Event * LogFile :=
  let timestamp := strftime_file now in
  let log_path := os_path_join output_dir (timestamp ++ u ".log") in
  ([Makedirs output_dir; OpenForWriting log_path],
   {| log_path := log_path |}).

(** The state a [YouTubeDownloader] keeps between two clicks. *)
Record YouTubeDownloader := { app_log_file : LogFile }.

(** [YouTubeDownloader.__init__]: the logger is created here, once. *)
Definition init (now : DateTime) : list Event * YouTubeDownloader :=
  let '(ev, f) := create_logger now (u "logs") in
  (ev, {| app_log_file := f |}).

(** What the widgets hold when the download button is clicked. *)
Record Form := {
  folder_entry : pystr;
  mp3_checkbox : bool;
  cookies_entry : pystr;
  urls_text : pystr
}.

(** The loop of [start_download] over the lines, [tasks] being the list
    built so far. *)
Fixpoint collect_tasks (lines : list pystr) (tasks : list Task)
  : list Task :=
  match lines with
  | [] => tasks
  | line :: more =>
      if negb (truthy (strip line)) then collect_tasks more tasks
      else
        let parts := split_once 44 line in
        let url := strip (nth 0 parts []) in
        let filename :=
          if (1 <? length parts)%nat then Some (strip (nth 1 parts []))
          else None in
        collect_tasks more (tasks ++ [(url, filename)])
  end.

(** [start_download]: the events on the window's side and the worker
    that was started, if one was. *)
Definition start_download (self : YouTubeDownloader) (form : Form)
  : list Event * option DownloadThread :=
  let output_dir :=
    if truthy (strip (folder_entry form)) then strip (folder_entry form)
    else u "downloads" in
  let to_mp3 := mp3_checkbox form in
  let cookies_file :=
    if truthy (strip (cookies_entry form))
    then Some (strip (cookies_entry form)) else None in
  let lines := splitlines (urls_text form) in
  match lines with
  | [] => ([ErrorBox (u "エラー") (u "URLを入力してください")], None)
  | _ :: _ =>
      let tasks := collect_tasks lines [] in
      ([ProgressDialogShown],
       Some {| tasks := tasks; output_dir := output_dir;
               to_mp3 := to_mp3; cookies_file := cookies_file;
               log_file := Some (app_log_file self) |})
  end.

(** [update_progress], the slot of [progress_update]. *)
Definition update_progress (percent : Z) (message : pystr) : list Event :=
  [ProgressBarSet percent (message ++ u " - " ++ str_of_Z percent ++ u "%")].

Definition completion_marker : pystr := nl ++ u "=== 完了 ===" ++ nl.

(** [download_finished], the slot of [finished_signal]. *)
Definition download_finished (self : YouTubeDownloader)
    (results : list pystr) : list Event :=
  [ProgressDialogClosed;
   LogText (app_log_file self) completion_marker;
   InfoBox (u "完了") (join (nl ++ nl) results)].

(** The slot connected to a signal, run when the signal is delivered;
    [progress_update] is declared [pyqtSignal(int, str)], so the slot
    receives the percentage as a C [int]. *)
Definition deliver (self : YouTubeDownloader) (e : Event) : list Event :=
  match e with
  | ProgressUpdate percent message =>
      update_progress (PyNum.c_int percent) message
  | FinishedSignal results => download_finished self results
  | _ => []
  end.

(** One click on the download button, followed to the end of the run it
    starts.  Each slot is placed right after the emission it answers:
    the window's thread handles the queued signals in emission order, and
    the worker emits [finished_signal] last. *)
Definition click (self : YouTubeDownloader) (form : Form) (env : RunEnv)
  : list Event :=
  match start_download self form with
  | (ev, None) => ev
  | (ev, Some worker) =>
      ev ++ flat_map (fun e => e :: deliver self e)
                     (fst (Worker.run worker env))
  end.

(** The texts written to the file [f], in order ([LogLine] without its
    timestamp). *)
Fixpoint written_to (f : LogFile) (trace : list Event) : list pystr :=
  match trace with
  | [] => []
  | LogLine g message :: more =>
      if pystr_eqb (log_path g) (log_path f)
      then message :: written_to f more else written_to f more
  | LogText g text :: more =>
      if pystr_eqb (log_path g) (log_path f)
      then text :: written_to f more else written_to f more
  | _ :: more => written_to f more
  end.

End Gui.

(* ================================================================== *)
(** ** The task list as the specification words it *)

Module Spec.

(** A line that is empty or holds only whitespace. *)
Definition blank (line : pystr) : bool := forallb isspace line.

(** Position of the first comma of a line. *)
Fixpoint first_comma (line : pystr) : option nat :=
  match line with
  | [] => None
  | c :: rest =>
      if (c =? 44)%N then Some O
      else option_map S (first_comma rest)
  end.

(** The stripped text before the first comma is the URL, the stripped
    text after it the output name; no name without a comma. *)
Definition task_of_line (line : pystr) : Task :=
  match first_comma line with
  | Some i => (strip (firstn i line), Some (strip (skipn (S i) line)))
  | None => (strip line, None)
  end.

Definition task_list (text : pystr) : list Task :=
  map task_of_line (filter (fun line => negb (blank line)) (splitlines text)).

End Spec.


(* ================================================================== *)
(** ** Reading a trace *)

Module Trace.

(** The downloader calls of a trace, in order. *)
Fixpoint download_calls (trace : list Event) : list (YdlOpts * pystr) :=
  match trace with
  | [] => []
  | ExtractInfo opts url :: more => (opts, url) :: download_calls more
  | _ :: more => download_calls more
  end.

(** The transcoder command lines of a trace, in order. *)
Fixpoint popen_calls (trace : list Event) : list (list pystr) :=
  match trace with
  | [] => []
  | Popen cmd :: more => cmd :: popen_calls more
  | _ :: more => popen_calls more
  end.

(** The progress reports of a trace, in order. *)
Fixpoint progress_reports (trace : list Event) : list (Z * pystr) :=
  match trace with
  | [] => []
  | ProgressUpdate percent message :: more =>
      (percent, message) :: progress_reports more
  | _ :: more => progress_reports more
  end.

(** The finished notifications of a trace, in order. *)
Fixpoint finished_signals (trace : list Event) : list (list pystr) :=
  match trace with
  | [] => []
  | FinishedSignal results :: more => results :: finished_signals more
  | _ :: more => finished_signals more
  end.

(** A progress report or a log line: the only events a progress hook and
    the scan of the transcoder output produce. *)
Definition is_report (e : Event) : bool :=
  match e with
  | ProgressUpdate _ _ | LogLine _ _ => true
  | _ => false
  end.

(** Inside one iteration: anything but a downloader call and the
    finished notification. *)
Definition is_inner (e : Event) : bool :=
  match e with
  | ExtractInfo _ _ | FinishedSignal _ => false
  | _ => true
  end.

(** The events of the iteration for [item = (idx, task)]. *)
Definition item_events (self : DownloadThread) (env : RunEnv)
    (item : nat * Task) : list Event :=
  fst (Worker.run_item self (fst item) (snd item) (item_env env (fst item))).

(** The string that iteration appends to [results]. *)
Definition item_result (self : DownloadThread) (env : RunEnv)
    (item : nat * Task) : pystr :=
  snd (Worker.run_item self (fst item) (snd item) (item_env env (fst item))).

(** The worker with the same fields but no cookies file. *)
Definition without_cookies (self : DownloadThread) : DownloadThread :=
  {| tasks := tasks self; output_dir := output_dir self;
     to_mp3 := to_mp3 self; cookies_file := None;
     log_file := log_file self |}.

End Trace.

(* ================================================================== *)
(** ** Concrete runs *)

Module Examples.

Definition morning : DateTime :=
  {| year := 2026; month := 3; day := 7;
     hour := 9; minute := 5; second := 0; microsecond := 120000 |}.

(** Later within the same second. *)
Definition morning_later : DateTime :=
  {| year := 2026; month := 3; day := 7;
     hour := 9; minute := 5; second := 0; microsecond := 870000 |}.

Definition window : Gui.YouTubeDownloader := snd (Gui.init morning).

Definition session_log : LogFile := Gui.app_log_file window.

(** A download that reports twice, then returns a title. *)
Definition downloads_fine : Downloader :=
  Reports {| status := u "downloading";
             downloaded_bytes := Some (VInt 50);
             total_bytes := Some (VInt 100) |}
    (fun _ =>
       Reports {| status := u "finished";
                  downloaded_bytes := Some (VInt 100);
                  total_bytes := Some (VInt 100) |}
         (fun _ => Returns (InfoDict (Some (u "Some Title"))))).

(** A download of a stream whose total size is not known: the hook
    dictionary has no ['total_bytes'] entry. *)
Definition downloads_without_total : Downloader :=
  Reports {| status := u "downloading";
             downloaded_bytes := Some (VInt 500);
             total_bytes := None |}
    (fun _ => Returns (InfoDict (Some (u "Some Title")))).

Definition downloads_fail : Downloader :=
  Raises (Exception (u "ERROR: unable to download video data")).

Definition transcodes_fine : Transcoder :=
  Prints [u "Input #0, mov,mp4, from 'x.mp4':";
          u "size=     256kB time=00:00:16.00 bitrate= 131.1kbits/s";
          u "size=     512kB time=00:00:32.00 bitrate= 131.1kbits/s";
          u "video:0kB audio:512kB"] None.

Definition item_fine : ItemEnv :=
  {| cookies_exist := false; downloader := downloads_fine;
     transcoder := transcodes_fine |}.

(** Every download succeeds. *)
Definition env_fine : RunEnv :=
  {| makedirs_error := None; item_env := fun _ => item_fine |}.

(** The download of the second task fails. *)
Definition env_second_fails : RunEnv :=
  {| makedirs_error := None;
     item_env := fun idx =>
       if Nat.eqb idx 2
       then {| cookies_exist := false; downloader := downloads_fail;
               transcoder := transcodes_fine |}
       else item_fine |}.

(** Every download fails. *)
Definition env_all_fail : RunEnv :=
  {| makedirs_error := None;
     item_env := fun _ =>
       {| cookies_exist := false; downloader := downloads_fail;
          transcoder := transcodes_fine |} |}.

Definition env_without_total : RunEnv :=
  {| makedirs_error := None;
     item_env := fun _ =>
       {| cookies_exist := false; downloader := downloads_without_total;
          transcoder := transcodes_fine |} |}.

Definition form_three : Gui.Form :=
  {| Gui.folder_entry := u "";
     Gui.mp3_checkbox := true;
     Gui.cookies_entry := u "cookies.txt";
     Gui.urls_text :=
       u "https://example.com/a, first" ++ nl
       ++ u "https://example.com/b" ++ nl
       ++ u "   " ++ nl
       ++ u "https://example.com/c,third,take" |}.

Definition form_other : Gui.Form :=
  {| Gui.folder_entry := u "videos";
     Gui.mp3_checkbox := false;
     Gui.cookies_entry := u "";
     Gui.urls_text := u "https://example.com/d" |}.

Definition form_empty : Gui.Form :=
  {| Gui.folder_entry := u ""; Gui.mp3_checkbox := false;
     Gui.cookies_entry := u ""; Gui.urls_text := [] |}.

Definition form_blank : Gui.Form :=
  {| Gui.folder_entry := u ""; Gui.mp3_checkbox := false;
     Gui.cookies_entry := u ""; Gui.urls_text := nl ++ u "   " ++ nl |}.

(** The worker [start_download] builds from [form_three]. *)
Definition three_tasks : DownloadThread :=
  {| tasks := [(u "https://example.com/a", Some (u "first"));
               (u "https://example.com/b", None);
               (u "https://example.com/c", Some (u "third,take"))];
     output_dir := u "downloads";
     to_mp3 := true;
     cookies_file := Some (u "cookies.txt");
     log_file := Some session_log |}.

Definition one_task : DownloadThread :=
  {| tasks := [(u "https://example.com/d", None)];
     output_dir := u "videos";
     to_mp3 := true;
     cookies_file := None;
     log_file := Some session_log |}.

End Examples.

(* ================================================================== *)
(** ** Binary64 rounding: the bound that is kept *)

Module FloatFacts.

(** The record [(m, r, s)] of a right shift stands for a value between
    [L] and [C], and below [C] as soon as a bit was shifted out. *)
Definition within (L C : Z) (mrs : shr_record) : Prop :=
  (L <= shr_m mrs <= C)%Z
  /\ (shr_r mrs || shr_s mrs = true -> (shr_m mrs < C)%Z).

End FloatFacts.

(* ================================================================== *)
(** ** Further observations and the rest of the window *)

Module Observe.

(** The messages of the log lines of a trace, in order. *)
Fixpoint log_messages (trace : list Event) : list pystr :=
  match trace with
  | [] => []
  | LogLine _ message :: more => message :: log_messages more
  | _ :: more => log_messages more
  end.

(** The texts written to a log file without a timestamp, in order. *)
Fixpoint text_writes (trace : list Event) : list pystr :=
  match trace with
  | [] => []
  | LogText _ text :: more => text :: text_writes more
  | _ :: more => text_writes more
  end.

(** The settings of the progress bar, in order. *)
Fixpoint bar_settings (trace : list Event) : list (Z * pystr) :=
  match trace with
  | [] => []
  | ProgressBarSet value fmt :: more => (value, fmt) :: bar_settings more
  | _ :: more => bar_settings more
  end.

(** The message boxes of a trace, in order: [true] for an error box. *)
Fixpoint message_boxes (trace : list Event) : list (bool * pystr * pystr) :=
  match trace with
  | [] => []
  | ErrorBox title text :: more => (true, title, text) :: message_boxes more
  | InfoBox title text :: more => (false, title, text) :: message_boxes more
  | _ :: more => message_boxes more
  end.

Definition is_log_line (e : Event) : bool :=
  match e with LogLine _ _ => true | _ => false end.

(** A trace without its log lines. *)
Definition unlogged (trace : list Event) : list Event :=
  filter (fun e => negb (is_log_line e)) trace.

(** What a worker may do: call the outside, emit its two signals, and
    write lines to the log file it was given.  It never touches a widget
    and never opens a file. *)
Definition worker_event (self : DownloadThread) (e : Event) : Prop :=
  match e with
  | Makedirs _ | ExtractInfo _ _ | Popen _ | ProcessWait
  | ProgressUpdate _ _ | FinishedSignal _ => True
  | LogLine f _ => log_file self = Some f
  | OpenForWriting _ | LogText _ _ | ErrorBox _ _ | InfoBox _ _
  | ProgressDialogShown | ProgressDialogClosed | ProgressBarSet _ _ => False
  end.

(** The worker with the same fields but no log file, as the constructor
    default [log_file=None] gives it. *)
Definition without_log (self : DownloadThread) : DownloadThread :=
  {| tasks := tasks self; output_dir := output_dir self;
     to_mp3 := to_mp3 self; cookies_file := cookies_file self;
     log_file := None |}.

(** A progress dictionary whose byte counts are integers with
    [0 <= downloaded <= total] and [1 <= total]; an absent count stands
    for its default.  Only ['downloading'] reports are constrained. *)
Definition plausible (d : HookDict) : Prop :=
  pystr_eqb (status d) (u "downloading") = true ->
  exists a b : Z,
    dict_get (downloaded_bytes d) 0 = VInt a
    /\ dict_get (total_bytes d) 1 = VInt b
    /\ (0 <= a <= b)%Z /\ (1 <= b)%Z.

(** A downloader all of whose reports are plausible, whatever the hook
    answers. *)
Inductive plausible_downloader : Downloader -> Prop :=
| plausible_returns (info : InfoResult) :
    plausible_downloader (Returns info)
| plausible_raises (e : PyExc) :
    plausible_downloader (Raises e)
| plausible_reports (d : HookDict) (next : option PyExc -> Downloader) :
    plausible d ->
    (forall raised, plausible_downloader (next raised)) ->
    plausible_downloader (Reports d next).

(** Every progress report of the trace is within 0..100. *)
Definition in_range (trace : list Event) : Prop :=
  Forall (fun r : Z * pystr => (0 <= fst r <= 100)%Z)
         (Trace.progress_reports trace).

(** No leading whitespace. *)
Definition no_lead (s : pystr) : Prop :=
  match s with
  | [] => True
  | c :: _ => isspace c = false
  end.

(** Neither leading nor trailing whitespace. *)
Definition stripped (s : pystr) : Prop := no_lead s /\ no_lead (rev s).

(** The shape of a task: a URL without surrounding whitespace and
    without a comma, and a file name without surrounding whitespace. *)
Definition well_formed (task : Task) : Prop :=
  stripped (fst task) /\ ~ In 44%N (fst task)
  /\ match snd task with
     | Some name => stripped name
     | None => True
     end.

End Observe.

Module Session.

(** [browse_folder], [chosen] being what the directory dialog returned
    (the empty string when it was cancelled). *)
Definition browse_folder (form : Gui.Form) (chosen : pystr) : Gui.Form :=
  if truthy chosen then
    {| Gui.folder_entry := chosen;
       Gui.mp3_checkbox := Gui.mp3_checkbox form;
       Gui.cookies_entry := Gui.cookies_entry form;
       Gui.urls_text := Gui.urls_text form |}
  else form.

(** [browse_cookies], [chosen] being the file name the dialog returned. *)
Definition browse_cookies (form : Gui.Form) (chosen : pystr) : Gui.Form :=
  if truthy chosen then
    {| Gui.folder_entry := Gui.folder_entry form;
       Gui.mp3_checkbox := Gui.mp3_checkbox form;
       Gui.cookies_entry := chosen;
       Gui.urls_text := Gui.urls_text form |}
  else form.

(** Several clicks on the download button of one window, each followed
    to the end of the run it starts. *)
Fixpoint clicks (self : Gui.YouTubeDownloader)
    (inputs : list (Gui.Form * RunEnv)) : list Event :=
  match inputs with
  | [] => []
  | (form, env) :: more => Gui.click self form env ++ clicks self more
  end.

(** Does this click start a worker that reaches its finished
    notification? *)
Definition completes (input : Gui.Form * RunEnv) : bool :=
  match splitlines (Gui.urls_text (fst input)),
        makedirs_error (snd input) with
  | _ :: _, None => true
  | _, _ => false
  end.

(** What [update_progress] makes of a progress report that reaches it
    through the signal. *)
Definition shown (r : Z * pystr) : Z * pystr :=
  (PyNum.c_int (fst r),
   snd r ++ u " - " ++ str_of_Z (PyNum.c_int (fst r)) ++ u "%").

(** The message box [download_finished] opens for a result list. *)
Definition finished_box (results : list pystr) : bool * pystr * pystr :=
  (false, u "完了", join (nl ++ nl) results).

End Session.

Module Stamp.

(** The number a string of decimal digits stands for. *)
Definition N_of_digits (s : pystr) : N :=
  fold_left (fun acc c => (acc * 10 + (c - 48))%N) s 0%N.

(** Numbers that fit the widths of the format, as those of every date
    and time from the year 1000 on do. *)
Definition valid (t : DateTime) : Prop :=
  (1000 <= year t < 10000 /\ month t < 100 /\ day t < 100
   /\ hour t < 100 /\ minute t < 100 /\ second t < 100)%N.

(** Reading the six numbers back from a file stamp. *)
Definition read_stamp (s : pystr) : list N :=
  [N_of_digits (firstn 4 s);
   N_of_digits (firstn 2 (skipn 4 s));
   N_of_digits (firstn 2 (skipn 6 s));
   N_of_digits (firstn 2 (skipn 9 s));
   N_of_digits (firstn 2 (skipn 11 s));
   N_of_digits (firstn 2 (skipn 13 s))].

(** Two moments of the same second. *)
Definition same_second (t1 t2 : DateTime) : Prop :=
  year t1 = year t2 /\ month t1 = month t2 /\ day t1 = day t2
  /\ hour t1 = hour t2 /\ minute t1 = minute t2 /\ second t1 = second t2.

(** The numbers below [bound]. *)
Definition below (bound : N) : list N :=
  map N.of_nat (seq 0 (N.to_nat bound)).

(** A number padded to [width] digits has that many digits, does not
    start with a slash, and reads back as itself. *)
Definition pads_well (width : nat) (n : N) : bool :=
  (length (zero_padded width n) =? width)%nat
  && negb (starts_with (u "/") (zero_padded width n))
  && (N_of_digits (zero_padded width n) =? n)%N.

End Stamp.

Module MoreExamples.

(** The total size is not known: ['total_bytes'] is [None].  As yt_dlp
    does, the downloader lets an exception of the hook through. *)
Definition report_unknown_size : HookDict :=
  {| status := u "downloading";
     downloaded_bytes := Some (VInt 500);
     total_bytes := Some VNone |}.

Definition lets_through (raised : option PyExc) : Downloader :=
  match raised with
  | Some e => Raises e
  | None => Returns (InfoDict (Some (u "Some Title")))
  end.

Definition downloads_unknown_size : Downloader :=
  Reports report_unknown_size lets_through.

Definition item_unknown_size : ItemEnv :=
  {| cookies_exist := false; downloader := downloads_unknown_size;
     transcoder := Examples.transcodes_fine |}.

(** The output directory cannot be created. *)
Definition env_no_directory : RunEnv :=
  {| makedirs_error :=
       Some (Exception (u "[Errno 13] Permission denied: 'downloads'"));
     item_env := fun _ => Examples.item_fine |}.

Definition report_half : HookDict :=
  {| status := u "downloading";
     downloaded_bytes := Some (VInt 50);
     total_bytes := Some (VInt 100) |}.



(** A stream without ['total_bytes'] of which about 21 MB are there. *)
Definition downloads_21_megabytes : Downloader :=
  Reports {| status := u "downloading";
             downloaded_bytes := Some (VInt 21474837);
             total_bytes := None |}
    (fun _ => Returns (InfoDict (Some (u "Some Title")))).

Definition env_21_megabytes : RunEnv :=
  {| makedirs_error := None;
     item_env := fun _ =>
       {| cookies_exist := false; downloader := downloads_21_megabytes;
          transcoder := Examples.transcodes_fine |} |}.

Definition app_only_error : PyExc :=
  Exception
    (u "ERROR: The following content is not available on this app.").

End MoreExamples.
(* ================================================================== *)
(** ** The library functions on examples

    The values below are the ones CPython 3.11 gives. *)

Section LibraryExamples.

Example splitlines_examples :
  map splitlines
      [u ""; nl; u "a" ++ nl; u "a" ++ nl ++ nl ++ u "b";
       u "a" ++ [13; 10]%N ++ u "b" ++ [13]%N ++ u "c"; u "  "]
  = [[]; [[]]; [u "a"]; [u "a"; []; u "b"]; [u "a"; u "b"; u "c"];
     [u "  "]].
Proof. vm_compute. reflexivity. Qed.

Example strip_examples :
  map strip [u " a b  "; u "   "; u ""; [31; 160; 12288; 97; 32]%N]
  = [u "a b"; []; []; u "a"].
Proof. vm_compute. reflexivity. Qed.

Example split_once_examples :
  map (split_once 44) [u "a,b,c"; u "abc"; u ",x"; u "x,"; u ""]
  = [[u "a"; u "b,c"]; [u "abc"]; [[]; u "x"]; [u "x"; []]; [[]]].
Proof. vm_compute. reflexivity. Qed.

Example str_of_nat_examples :
  map str_of_nat [0; 9; 10; 99; 100; 101; 1024]
  = [u "0"; u "9"; u "10"; u "99"; u "100"; u "101"; u "1024"].
Proof. vm_compute. reflexivity. Qed.

Example os_path_join_examples :
  [os_path_join (u "d") (u "x.mp4"); os_path_join (u "d/") (u "x");
   os_path_join (u "") (u "x"); os_path_join (u "d") (u "/x")]
  = [u "d/x.mp4"; u "d/x"; u "x"; u "/x"].
Proof. vm_compute. reflexivity. Qed.

Example strftime_file_example :
  strftime_file Examples.morning = u "20260307_090500".
Proof. vm_compute. reflexivity. Qed.

(** [int(a / max(b, 1) * 100)]: the float steps are visible in
    [29, 100] and [57, 100], which give 28 and 56. *)
Example percent_of_examples :
  map (fun ab => PyNum.percent_of (VInt (fst ab)) (VInt (snd ab)))
      [(29, 100); (57, 100); (1, 3); (7, 7); (0, 5); (500, 1); (500, 0);
       (-3, 7); (10 ^ 400, 10 ^ 399)]%Z
  = map inr [28; 56; 33; 100; 0; 50000; 50000; -42; 1000]%Z.
Proof. vm_compute. reflexivity. Qed.

Example percent_of_errors :
  PyNum.percent_of (VInt 1) VNone
  = inl (Exception
           (u "'>' not supported between instances of 'int' and 'NoneType'"))
  /\ PyNum.percent_of VNone (VInt 1)
     = inl (Exception
              (u "unsupported operand type(s) for /: 'NoneType' and 'int'"))
  /\ PyNum.percent_of (VInt (10 ^ 400)) (VInt 1)
     = inl (Exception (u "integer division result too large for a float"))
  /\ PyNum.percent_of (VInt (10 ^ 307)) (VInt 1)
     = inl (Exception (u "cannot convert float infinity to integer")).
Proof. repeat split; vm_compute; reflexivity. Qed.

End LibraryExamples.

(* ================================================================== *)
(** ** Facts about the string functions *)

Section StringFacts.

Lemma lstrip_all_space (s : pystr) :
  lstrip s = [] <-> forallb isspace s = true.
Proof.
  induction s as [|c s IH]; simpl.
  - tauto.
  - destruct (isspace c); simpl.
    + exact IH.
    + split; discriminate.
Qed.

Lemma lstrip_head (s : pystr) (c : N) (r : pystr) :
  lstrip s = c :: r -> isspace c = false.
Proof.
  induction s as [|a s IH]; simpl.
  - discriminate.
  - destruct (isspace a) eqn:Ea.
    + exact IH.
    + intros H. injection H as -> _. exact Ea.
Qed.

Lemma forallb_rev {A : Type} (p : A -> bool) (l : list A) :
  forallb p (rev l) = forallb p l.
Proof.
  induction l as [|a l IH]; simpl.
  - reflexivity.
  - rewrite forallb_app, IH. simpl. rewrite andb_true_r. apply andb_comm.
Qed.

Lemma strip_all_space (s : pystr) :
  strip s = [] <-> forallb isspace s = true.
Proof.
  unfold strip, rstrip. split.
  - intros H.
    assert (H1 : lstrip (rev (lstrip s)) = []).
    { destruct (lstrip (rev (lstrip s))) as [|x l]; [reflexivity|].
      apply (f_equal (@length N)) in H. rewrite length_rev in H.
      discriminate. }
    apply lstrip_all_space in H1. rewrite forallb_rev in H1.
    destruct (lstrip s) as [|c r] eqn:E.
    + apply lstrip_all_space. exact E.
    + apply lstrip_head in E. simpl in H1. rewrite E in H1. discriminate.
  - intros H. apply lstrip_all_space in H. rewrite H. reflexivity.
Qed.

(** The test [not line.strip()] of the source is the blank-line test. *)
Lemma not_strip_blank (line : pystr) :
  negb (truthy (strip line)) = Spec.blank line.
Proof.
  unfold Spec.blank.
  destruct (forallb isspace line) eqn:E.
  - apply strip_all_space in E. rewrite E. reflexivity.
  - destruct (strip line) as [|c r] eqn:Es; [|reflexivity].
    apply strip_all_space in Es. congruence.
Qed.

(** [split(",", maxsplit=1)] cuts at the first comma, and only there. *)
Lemma split_once_first_comma (line : pystr) :
  split_once 44 line =
  match Spec.first_comma line with
  | Some i => [firstn i line; skipn (S i) line]
  | None => [line]
  end.
Proof.
  induction line as [|c rest IH]; simpl.
  - reflexivity.
  - destruct (c =? 44)%N.
    + reflexivity.
    + rewrite IH. destruct (Spec.first_comma rest); reflexivity.
Qed.

Lemma first_comma_spec (line : pystr) (i : nat) :
  Spec.first_comma line = Some i ->
  line = firstn i line ++ 44%N :: skipn (S i) line
  /\ ~ In 44%N (firstn i line).
Proof.
  revert i. induction line as [|c rest IH]; simpl; intros i H.
  - discriminate.
  - destruct (c =? 44)%N eqn:E.
    + injection H as <-. apply N.eqb_eq in E. subst c. simpl. tauto.
    + destruct (Spec.first_comma rest) as [j|]; [|discriminate].
      injection H as <-. destruct (IH j eq_refl) as [H1 H2].
      simpl. split.
      * f_equal. exact H1.
      * intros [H|H]; [|tauto]. subst c. discriminate.
Qed.

Lemma first_comma_none (line : pystr) :
  Spec.first_comma line = None -> ~ In 44%N line.
Proof.
  induction line as [|c rest IH]; simpl; intros H.
  - tauto.
  - destruct (c =? 44)%N eqn:E; [discriminate|].
    destruct (Spec.first_comma rest); [discriminate|].
    intros [H1|H1]; [|tauto]. subst c. discriminate.
Qed.

Lemma starts_with_app (p s : pystr) : starts_with p (p ++ s) = true.
Proof.
  induction p as [|a p IH]; simpl.
  - reflexivity.
  - rewrite N.eqb_refl. exact IH.
Qed.

Lemma contains_here (p s : pystr) :
  starts_with p s = true -> contains p s = true.
Proof. destruct s; simpl; intros ->; reflexivity. Qed.

Lemma contains_infix (p a b : pystr) : contains p (a ++ p ++ b) = true.
Proof.
  induction a as [|x a IH]; simpl.
  - apply contains_here, starts_with_app.
  - rewrite IH. apply orb_true_r.
Qed.

Lemma splitlines_from_nonempty (cur s : pystr) :
  cur <> [] \/ s <> [] -> splitlines_from cur s <> [].
Proof.
  revert cur. induction s as [|c rest IH]; intros cur H; simpl.
  - destruct cur; [tauto | discriminate].
  - destruct (is_linebreak c).
    + destruct (c =? 13)%N; [destruct rest as [|c' rest']|];
        try discriminate.
      destruct (c' =? 10)%N; discriminate.
    + apply IH. left. discriminate.
Qed.

(** A text that is not empty has at least one line. *)
Lemma splitlines_nonempty (s : pystr) : s <> [] -> splitlines s <> [].
Proof. intros H. apply splitlines_from_nonempty. now right. Qed.

End StringFacts.

(* ================================================================== *)
(** ** The task list *)

Section TaskList.

Lemma collect_one (line : pystr) :
  let parts := split_once 44 line in
  (strip (nth 0 parts []),
   if (1 <? length parts)%nat then Some (strip (nth 1 parts [])) else None)
  = Spec.task_of_line line.
Proof.
  cbv zeta. rewrite split_once_first_comma. unfold Spec.task_of_line.
  destruct (Spec.first_comma line); reflexivity.
Qed.

Lemma collect_tasks_spec (lines : list pystr) (acc : list Task) :
  Gui.collect_tasks lines acc =
  acc ++ map Spec.task_of_line
           (filter (fun line => negb (Spec.blank line)) lines).
Proof.
  revert acc. induction lines as [|line more IH]; intros acc; simpl.
  - now rewrite app_nil_r.
  - rewrite not_strip_blank. destruct (Spec.blank line); simpl.
    + apply IH.
    + rewrite IH, <- app_assoc. simpl. f_equal. f_equal. apply collect_one.
Qed.

(** C4.  [start_download] starts no worker exactly when the text has no
    line; otherwise the worker's task list is the one the specification
    describes: the text split into lines, the blank lines (empty or
    whitespace only) dropped, every other line cut at its first comma
    only, the stripped text before the comma being the URL and the
    stripped text after it the output name, and a line without a comma
    giving the stripped line as URL and no name. *)
Theorem C4_start_download_task_list (self : Gui.YouTubeDownloader)
    (form : Gui.Form) :
  match snd (Gui.start_download self form) with
  | Some worker => tasks worker = Spec.task_list (Gui.urls_text form)
  | None => splitlines (Gui.urls_text form) = []
  end.
Proof.
  unfold Gui.start_download, Spec.task_list.
  destruct (splitlines (Gui.urls_text form)) as [|l ls] eqn:E; simpl snd.
  - reflexivity.
  - exact (collect_tasks_spec (l :: ls) []).
Qed.

End TaskList.

(* ================================================================== *)
(** ** The worker: shape of a run *)

Section RunShape.

Import Worker Trace.

Variable self : DownloadThread.

Lemma download_calls_app (a b : list Event) :
  download_calls (a ++ b) = download_calls a ++ download_calls b.
Proof.
  induction a as [|e a IH]; simpl; [reflexivity|].
  destruct e; simpl; rewrite IH; reflexivity.
Qed.

Lemma finished_signals_app (a b : list Event) :
  finished_signals (a ++ b) = finished_signals a ++ finished_signals b.
Proof.
  induction a as [|e a IH]; simpl; [reflexivity|].
  destruct e; simpl; rewrite IH; reflexivity.
Qed.

Lemma popen_calls_app (a b : list Event) :
  popen_calls (a ++ b) = popen_calls a ++ popen_calls b.
Proof.
  induction a as [|e a IH]; simpl; [reflexivity|].
  destruct e; simpl; rewrite IH; reflexivity.
Qed.

Lemma progress_reports_app (a b : list Event) :
  progress_reports (a ++ b) = progress_reports a ++ progress_reports b.
Proof.
  induction a as [|e a IH]; simpl; [reflexivity|].
  destruct e; simpl; rewrite IH; reflexivity.
Qed.

Lemma report_is_inner (l : list Event) :
  forallb is_report l = true -> forallb is_inner l = true.
Proof.
  induction l as [|e l IH]; simpl; [reflexivity|].
  intros H. apply andb_true_iff in H as [He Hl].
  rewrite (IH Hl). destruct e; try discriminate; reflexivity.
Qed.

Lemma inner_no_download (l : list Event) :
  forallb is_inner l = true -> download_calls l = [].
Proof.
  induction l as [|e l IH]; simpl; [reflexivity|].
  intros H. apply andb_true_iff in H as [He Hl].
  destruct e; try discriminate; auto.
Qed.

Lemma inner_no_finished (l : list Event) :
  forallb is_inner l = true -> finished_signals l = [].
Proof.
  induction l as [|e l IH]; simpl; [reflexivity|].
  intros H. apply andb_true_iff in H as [He Hl].
  destruct e; try discriminate; auto.
Qed.

Lemma report_no_popen (l : list Event) :
  forallb is_report l = true -> popen_calls l = [].
Proof.
  induction l as [|e l IH]; simpl; [reflexivity|].
  intros H. apply andb_true_iff in H as [He Hl].
  destruct e; try discriminate; auto.
Qed.

Lemma log_report (message : pystr) :
  forallb is_report (log self message) = true.
Proof. unfold log. destruct (log_file self); reflexivity. Qed.

Lemma progress_hook_report (filename : option pystr) (idx : nat)
    (d : HookDict) :
  forallb is_report (fst (progress_hook self filename idx d)) = true.
Proof.
  unfold progress_hook.
  destruct (pystr_eqb (status d) (u "downloading")).
  - destruct (PyNum.percent_of _ _); simpl; [reflexivity|apply log_report].
  - destruct (pystr_eqb (status d) (u "finished")); simpl;
      [apply log_report|reflexivity].
Qed.

Lemma extract_info_report (hook : HookDict -> list Event * option PyExc)
    (behaviour : Downloader) :
  (forall d, forallb is_report (fst (hook d)) = true) ->
  forallb is_report (fst (extract_info hook behaviour)) = true.
Proof.
  intros Hhook. induction behaviour as [info|e|d next IH]; simpl;
    try reflexivity.
  specialize (Hhook d). destruct (hook d) as [ev raised].
  specialize (IH raised).
  destruct (extract_info hook (next raised)) as [ev' outcome].
  simpl in *. rewrite forallb_app, Hhook, IH. reflexivity.
Qed.

Lemma scan_stdout_report (idx : nat) (title : pystr) (lines : list pystr) :
  forallb is_report (scan_stdout self idx title lines) = true.
Proof.
  induction lines as [|line more IH]; simpl; [reflexivity|].
  rewrite forallb_app, IH, andb_true_r.
  destruct (contains (u "time=") line); simpl;
    [apply log_report|reflexivity].
Qed.

Lemma convert_inner (idx : nat) (title mp4_file : pystr)
    (behaviour : Transcoder) :
  forallb is_inner (fst (convert self idx title mp4_file behaviour)) = true.
Proof.
  unfold convert. destruct behaviour as [e|lines [e|]]; simpl.
  - reflexivity.
  - apply report_is_inner, scan_stdout_report.
  - rewrite forallb_app, (report_is_inner _ (scan_stdout_report _ _ _)).
    simpl. apply report_is_inner, log_report.
Qed.

(** The [try] block starts with the one downloader call of the
    iteration; nothing after it is a downloader call or a finished
    notification. *)
Lemma try_body_shape (idx : nat) (url : pystr) (filename : option pystr)
    (env : ItemEnv) :
  exists inner,
    fst (try_body self idx (url, filename) env) =
    ExtractInfo (ydl_opts self filename idx (cookies_exist env)) url :: inner
    /\ forallb is_inner inner = true.
Proof.
  unfold try_body.
  pose proof (extract_info_report (progress_hook self filename idx)
                (downloader env) (progress_hook_report filename idx)) as Hdl.
  destruct (extract_info _ _) as [ev_dl got]. simpl in Hdl.
  apply report_is_inner in Hdl.
  destruct got as [e|info]; [simpl; eauto|].
  destruct (title_of filename info) as [e|title]; [simpl; eauto|].
  destruct (to_mp3 self); [|simpl; eauto].
  pose proof (convert_inner idx title
                (os_path_join (output_dir self) (title ++ u ".mp4"))
                (transcoder env)) as Hcv.
  destruct (convert _ _ _ _ _) as [ev2 [e|mp3_file]]; simpl in *;
    (eexists; split; [reflexivity|]); rewrite forallb_app, Hdl, Hcv;
    reflexivity.
Qed.

Lemma item_events_shape (env : RunEnv) (idx : nat) (url : pystr)
    (filename : option pystr) :
  exists inner,
    item_events self env (idx, (url, filename)) =
    ExtractInfo
      (ydl_opts self filename idx (cookies_exist (item_env env idx))) url
    :: inner
    /\ forallb is_inner inner = true.
Proof.
  unfold item_events, run_item. cbn [fst snd].
  destruct (try_body_shape idx url filename (item_env env idx))
    as (inner & Heq & Hin).
  destruct (try_body self idx (url, filename) (item_env env idx))
    as [ev [e|[mp4_file mp3_file]]]; cbn [fst snd] in *; subst ev.
  - exists (inner ++ log self (error_log url e)). split; [reflexivity|].
    rewrite forallb_app, Hin. apply report_is_inner, log_report.
  - eauto.
Qed.

(** The loop: the events of the iterations one after the other, and one
    string appended to [results] per iteration. *)
Lemma for_each_shape (env : RunEnv) (items : list (nat * Task))
    (results : list pystr) :
  for_each self env items results =
  (concat (map (item_events self env) items),
   results ++ map (item_result self env) items).
Proof.
  revert results. induction items as [|[idx task] more IH];
    intros results; simpl.
  - now rewrite app_nil_r.
  - unfold item_events at 1, item_result at 1. cbn [fst snd].
    destruct (run_item self idx task (item_env env idx)) as [ev r].
    rewrite IH. cbn [fst snd]. now rewrite <- app_assoc.
Qed.

(** A run that gets past the creation of the output directory. *)
Lemma run_shape (env : RunEnv) :
  makedirs_error env = None ->
  run self env =
  (Makedirs (output_dir self)
   :: concat (map (item_events self env) (enumerate (tasks self) 1))
   ++ [FinishedSignal
         (map (item_result self env) (enumerate (tasks self) 1))],
   None).
Proof.
  intros H. unfold run. rewrite H, for_each_shape. reflexivity.
Qed.

Lemma items_no_finished (env : RunEnv)
    (items : list (nat * Task)) :
  finished_signals (concat (map (item_events self env) items)) = [].
Proof.
  induction items as [|[idx [url filename]] more IH]; cbn [concat map];
    [reflexivity|].
  rewrite finished_signals_app, IH, app_nil_r.
  destruct (item_events_shape env idx url filename) as (inner & -> & Hin).
  simpl. now apply inner_no_finished.
Qed.

Lemma download_calls_items (env : RunEnv) (items : list (nat * Task)) :
  download_calls (concat (map (item_events self env) items)) =
  map (fun item : nat * Task =>
         (ydl_opts self (snd (snd item)) (fst item)
            (cookies_exist (item_env env (fst item))),
          fst (snd item))) items.
Proof.
  induction items as [|[idx [url filename]] more IH]; cbn [concat map];
    [reflexivity|].
  rewrite download_calls_app, IH.
  destruct (item_events_shape env idx url filename) as (inner & -> & Hin).
  simpl. now rewrite (inner_no_download _ Hin).
Qed.



Lemma enumerate_nth {A : Type} (l : list A) (start i : nat) :
  nth_error (enumerate l start) i =
  option_map (fun x => (start + i, x)) (nth_error l i).
Proof.
  revert start i. induction l as [|x l IH]; intros start [|i]; simpl;
    try reflexivity.
  - now rewrite Nat.add_0_r.
  - rewrite IH. destruct (nth_error l i); simpl; [|reflexivity].
    do 2 f_equal. lia.
Qed.

Lemma map_snd_enumerate {A : Type} (l : list A) (start : nat) :
  map snd (enumerate l start) = l.
Proof.
  revert start. induction l as [|x l IH]; intros start; simpl;
    [reflexivity|]. now rewrite IH.
Qed.

(** Past the creation of the output directory, the URLs the downloader
    is called with are the URLs of the tasks, in task order. *)
Lemma download_urls_run (env : RunEnv) :
  makedirs_error env = None ->
  map snd (download_calls (fst (run self env))) = map fst (tasks self).
Proof.
  intros Hmk. rewrite (run_shape env Hmk). cbn [fst download_calls].
  rewrite download_calls_app, download_calls_items.
  cbn [download_calls]. rewrite app_nil_r, map_map. cbn [snd].
  rewrite <- (map_map snd fst), map_snd_enumerate. reflexivity.
Qed.

End RunShape.

(* ================================================================== *)
(** ** The worker: results, failures, order *)

Section RunResults.

Import Worker Trace.

Variable self : DownloadThread.

Lemma truthy_app_r (a b : pystr) : truthy b = true -> truthy (a ++ b) = true.
Proof. destruct a; simpl; auto. Qed.

Lemma os_path_join_truthy (a b : pystr) :
  truthy b = true -> truthy (os_path_join a b) = true.
Proof.
  intros H. unfold os_path_join.
  destruct (starts_with (u "/") b); [exact H|].
  destruct (negb (truthy a) || ends_with (u "/") a);
    repeat apply truthy_app_r; exact H.
Qed.

(** The audio path is never the empty string, so a successful conversion
    always adds its second line. *)
Lemma success_text_mp3 (mp4_file dir title : pystr) :
  success_text mp4_file (Some (os_path_join dir (title ++ u ".mp3"))) =
  mp4_file ++ nl ++ os_path_join dir (title ++ u ".mp3").
Proof.
  unfold success_text.
  now rewrite os_path_join_truthy by (apply truthy_app_r; reflexivity).
Qed.

(** What a [try] block that ends normally has computed. *)
Lemma try_body_success (idx : nat) (url : pystr) (filename : option pystr)
    (env : ItemEnv) (mp4_file : pystr) (mp3_file : option pystr) :
  snd (try_body self idx (url, filename) env) = inr (mp4_file, mp3_file) ->
  exists info title,
    snd (extract_info (progress_hook self filename idx) (downloader env))
    = inr info
    /\ title_of filename info = inr title
    /\ mp4_file = os_path_join (output_dir self) (title ++ u ".mp4")
    /\ mp3_file =
       if to_mp3 self
       then Some (os_path_join (output_dir self) (title ++ u ".mp3"))
       else None.
Proof.
  unfold try_body.
  destruct (extract_info _ _) as [ev_dl [e|info]]; cbn [snd];
    [discriminate|].
  destruct (title_of filename info) as [e|title] eqn:Et; cbn [snd];
    [discriminate|].
  destruct (to_mp3 self).
  - unfold convert.
    destruct (transcoder env) as [e|lines [e|]]; cbn [snd];
      try discriminate.
    intros H. injection H as <- <-. eauto 6.
  - cbn [snd]. intros H. injection H as <- <-. eauto 6.
Qed.




End RunResults.

(* ================================================================== *)
(** ** The options handed to the downloader *)

Section Options.

Import Worker Trace.

Lemma enumerate_in {A : Type} (l : list A) (start idx : nat) (x : A) :
  In (idx, x) (enumerate l start) ->
  exists i, idx = start + i /\ nth_error l i = Some x.
Proof.
  intros H. apply In_nth_error in H as [i Hi].
  rewrite enumerate_nth in Hi.
  destruct (nth_error l i) as [y|] eqn:E; [|discriminate].
  injection Hi as <- <-. eauto.
Qed.

(** Every downloader call of a run is the call of one iteration, with the
    options that iteration builds. *)
Lemma download_calls_run (self : DownloadThread) (env : RunEnv)
    (opts : YdlOpts) (url : pystr) :
  In (opts, url) (download_calls (fst (run self env))) ->
  exists i filename,
    nth_error (tasks self) i = Some (url, filename)
    /\ opts = ydl_opts self filename (S i)
                (cookies_exist (item_env env (S i))).
Proof.
  unfold run. destruct (makedirs_error env) as [e|].
  - intros [].
  - rewrite for_each_shape. cbn [fst download_calls].
    rewrite download_calls_app, download_calls_items.
    cbn [download_calls]. rewrite app_nil_r.
    intros H. apply in_map_iff in H as ([idx [url' filename]] & Heq & Hin).
    cbn [fst snd] in Heq. injection Heq as <- <-.
    apply enumerate_in in Hin as (i & -> & Hi).
    exists i, filename. split; [exact Hi|reflexivity].
Qed.

(** C5, as amended.  Four entries of the options are the same in every
    call of every run: [format], [merge_output_format], [noplaylist] and
    [quiet].  The others belong to the iteration: [outtmpl] is built from
    the output directory and the file name of the task, the progress hook
    is the closure of the iteration, and [cookiefile] is present only
    when a cookies file was given and exists at that moment. *)
Theorem C5_options_fixed_part_and_item_part (self : DownloadThread)
    (env : RunEnv) (opts : YdlOpts) (url : pystr) :
  In (opts, url) (download_calls (fst (run self env))) ->
  format opts = u "bestvideo+bestaudio/best"
  /\ merge_output_format opts = u "mp4"
  /\ noplaylist opts = true
  /\ quiet opts = true
  /\ exists i filename,
       nth_error (tasks self) i = Some (url, filename)
       /\ outtmpl opts =
          os_path_join (output_dir self)
            (if truthy_opt filename
             then or_else filename [] ++ u ".%(ext)s"
             else u "%(title)s.%(ext)s")
       /\ progress_hooks opts =
          [{| hook_filename := filename; hook_idx := S i |}]
       /\ cookiefile opts =
          if truthy_opt (cookies_file self)
             && cookies_exist (item_env env (S i))
          then cookies_file self else None.
Proof.
  intros H. apply download_calls_run in H as (i & filename & Hi & ->).
  repeat (split; [reflexivity|]).
  exists i, filename. split; [exact Hi|].
  split; [|split; reflexivity].
  cbn [ydl_opts outtmpl]. destruct filename as [name|]; [|reflexivity].
  cbn [truthy_opt or_else]. destruct (truthy name); reflexivity.
Qed.

End Options.

(* ================================================================== *)
(** ** Transcoding *)

Section Transcoding.

Import Worker Trace.

Variable self : DownloadThread.


Lemma extract_info_no_popen (filename : option pystr) (idx : nat)
    (behaviour : Downloader) :
  popen_calls
    (fst (extract_info (progress_hook self filename idx) behaviour)) = [].
Proof.
  apply report_no_popen, extract_info_report.
  apply progress_hook_report.
Qed.


End Transcoding.

(* ================================================================== *)
(** ** A cookies file that does not exist *)

Section MissingCookies.

Import Worker Trace.

Variable self : DownloadThread.

Lemma scan_stdout_without_cookies (idx : nat) (title : pystr)
    (lines : list pystr) :
  scan_stdout (without_cookies self) idx title lines =
  scan_stdout self idx title lines.
Proof.
  induction lines as [|line more IH]; cbn [scan_stdout]; [reflexivity|].
  now rewrite IH.
Qed.

Lemma convert_without_cookies (idx : nat) (title mp4_file : pystr)
    (behaviour : Transcoder) :
  convert (without_cookies self) idx title mp4_file behaviour =
  convert self idx title mp4_file behaviour.
Proof.
  unfold convert. destruct behaviour as [e|lines [e|]];
    rewrite ?scan_stdout_without_cookies; reflexivity.
Qed.

Lemma ydl_opts_without_cookies (filename : option pystr) (idx : nat) :
  ydl_opts self filename idx false =
  ydl_opts (without_cookies self) filename idx false.
Proof. unfold ydl_opts. now rewrite andb_false_r. Qed.

Lemma try_body_without_cookies (idx : nat) (task : Task) (env : ItemEnv) :
  cookies_exist env = false ->
  try_body (without_cookies self) idx task env = try_body self idx task env.
Proof.
  intros H. destruct task as [url filename]. unfold try_body.
  rewrite H, <- ydl_opts_without_cookies.
  change (progress_hook (without_cookies self) filename idx)
    with (progress_hook self filename idx).
  destruct (extract_info _ _) as [ev_dl [e|info]]; [reflexivity|].
  destruct (title_of filename info) as [e|title]; [reflexivity|].
  change (to_mp3 (without_cookies self)) with (to_mp3 self).
  change (output_dir (without_cookies self)) with (output_dir self).
  now rewrite convert_without_cookies.
Qed.

Lemma for_each_without_cookies (env : RunEnv) (items : list (nat * Task))
    (results : list pystr) :
  (forall idx, cookies_exist (item_env env idx) = false) ->
  for_each (without_cookies self) env items results =
  for_each self env items results.
Proof.
  intros H. revert results.
  induction items as [|[idx task] more IH]; intros results;
    cbn [for_each]; [reflexivity|].
  unfold run_item. rewrite (try_body_without_cookies idx task _ (H idx)).
  change (log (without_cookies self)) with (log self).
  destruct (try_body self idx task (item_env env idx))
    as [ev [e|[mp4_file mp3_file]]]; now rewrite IH.
Qed.

(** C10.  When a cookies file is named but [os.path.exists] finds no
    file at it, in no iteration, the run is event for event the run of
    the same worker without a cookies file: every downloader call is made
    with no [cookiefile] entry, and nothing is logged, reported or raised
    on account of the missing file. *)
Theorem C10_missing_cookies_file_silently_omitted (env : RunEnv)
    (path : pystr) :
  cookies_file self = Some path ->
  (forall idx, cookies_exist (item_env env idx) = false) ->
  run self env = run (without_cookies self) env
  /\ (forall opts url,
        In (opts, url) (download_calls (fst (run self env))) ->
        cookiefile opts = None)
  /\ (makedirs_error env = None ->
      map snd (download_calls (fst (run self env))) = map fst (tasks self)).
Proof.
  intros _ Hmissing. split; [|split].
  - unfold run. destruct (makedirs_error env); [reflexivity|].
    now rewrite (for_each_without_cookies env _ _ Hmissing).
  - intros opts url Hin.
    apply download_calls_run in Hin as (i & filename & _ & ->).
    cbn [ydl_opts cookiefile]. now rewrite Hmissing, andb_false_r.
  - apply download_urls_run.
Qed.

End MissingCookies.

(* ================================================================== *)
(** ** The window: empty input, the session log *)

Section Window.

Import Worker Trace Gui.

Lemma pystr_eqb_refl (s : pystr) : pystr_eqb s s = true.
Proof.
  induction s as [|c s IH]; cbn [pystr_eqb]; [reflexivity|].
  now rewrite N.eqb_refl, IH.
Qed.

Lemma all_blank_no_task (lines : list pystr) :
  forallb Spec.blank lines = true ->
  filter (fun line => negb (Spec.blank line)) lines = [].
Proof.
  induction lines as [|line more IH]; cbn [forallb filter]; [reflexivity|].
  intros H. apply andb_true_iff in H as [-> Hmore]. now apply IH.
Qed.

(** The worker of an empty task list only creates the output directory
    and emits the finished notification with no result. *)
Lemma run_no_task (worker : DownloadThread) (env : RunEnv) :
  tasks worker = [] ->
  makedirs_error env = None ->
  run worker env =
  ([Makedirs (output_dir worker); FinishedSignal []], None).
Proof. intros Ht Hmk. unfold run. now rewrite Hmk, Ht. Qed.

(** C9, as amended.  With a completely empty text, [start_download] shows the error
    box and starts no worker, and that is all the click does.  With a
    text that is not empty but whose lines are all blank, a worker is
    started, its task list is empty, and its run (once the output
    directory is there) emits the finished notification with an empty
    result list. *)
Theorem C9_empty_text_and_blank_text (self : YouTubeDownloader)
    (form : Form) (env : RunEnv) :
  (urls_text form = [] ->
   start_download self form =
   ([ErrorBox (u "エラー") (u "URLを入力してください")], None)
   /\ click self form env =
      [ErrorBox (u "エラー") (u "URLを入力してください")])
  /\ (urls_text form <> [] ->
      forallb Spec.blank (splitlines (urls_text form)) = true ->
      makedirs_error env = None ->
      exists worker,
        snd (start_download self form) = Some worker
        /\ tasks worker = []
        /\ run worker env =
           ([Makedirs (output_dir worker); FinishedSignal []], None)).
Proof.
  split.
  - intros H. unfold click, start_download. rewrite H. split; reflexivity.
  - intros Hne Hblank Hmk.
    pose proof (splitlines_nonempty _ Hne) as Hlines.
    unfold start_download.
    destruct (splitlines (urls_text form)) as [|l ls] eqn:E; [tauto|].
    cbn [snd]. eexists. split; [reflexivity|].
    assert (Ht : collect_tasks (l :: ls) [] = []).
    { rewrite collect_tasks_spec, all_blank_no_task by exact Hblank.
      reflexivity. }
    split; [exact Ht|].
    apply run_no_task; [exact Ht|exact Hmk].
Qed.

(** The slots do not write to the log before the finished notification
    is delivered. *)
Lemma written_to_delivered (self : YouTubeDownloader) (f : LogFile)
    (trace : list Event) :
  finished_signals trace = [] ->
  written_to f (flat_map (fun e => e :: deliver self e) trace) =
  written_to f trace.
Proof.
  induction trace as [|e more IH]; cbn [flat_map]; [reflexivity|].
  destruct e; cbn [finished_signals deliver update_progress app written_to];
    intros H; try discriminate; now rewrite IH.
Qed.

Lemma written_to_app (f : LogFile) (a b : list Event) :
  written_to f (a ++ b) = written_to f a ++ written_to f b.
Proof.
  induction a as [|e a IH]; cbn [app written_to]; [reflexivity|].
  destruct e; try exact IH;
    destruct (pystr_eqb (log_path f0) (log_path f)); cbn [app];
    now rewrite IH.
Qed.

(** C8, as amended.  The log file belongs to the window, not to a run:
    it is created once, when the window is, in the directory ["logs"]
    under the name [<YYYYmmdd_HHMMSS>.log] of that moment, and every
    worker the window starts is given this file.  When a run emits its
    final notification, the slot of the window appends the completion
    marker to this file: in the trace of the click the notification is
    followed by the closing of the progress dialog and then by that
    write, and in the file the marker comes after everything the run
    has logged. *)
Theorem C8_window_log_and_completion_marker (now : DateTime)
    (form : Form) (env : RunEnv) (worker : DownloadThread) :
  snd (start_download (snd (init now)) form) = Some worker ->
  makedirs_error env = None ->
  let session_log :=
    {| log_path := os_path_join (u "logs") (strftime_file now ++ u ".log") |}
  in
  init now =
  ([Makedirs (u "logs"); OpenForWriting (log_path session_log)],
   {| app_log_file := session_log |})
  /\ log_file worker = Some session_log
  /\ exists before results,
       fst (run worker env) = before ++ [FinishedSignal results]
       /\ finished_signals before = []
       /\ click (snd (init now)) form env =
          ProgressDialogShown
          :: flat_map (fun e => e :: deliver (snd (init now)) e) before
          ++ [FinishedSignal results;
              ProgressDialogClosed;
              LogText session_log completion_marker;
              InfoBox (u "完了") (join (nl ++ nl) results)]
       /\ written_to session_log (click (snd (init now)) form env) =
          written_to session_log before ++ [completion_marker].
Proof.
  intros Hstart Hmk session_log.
  split; [reflexivity|].
  assert (Hlog : log_file worker = Some session_log).
  { unfold start_download in Hstart.
    destruct (splitlines (urls_text form)); [discriminate|].
    cbn [snd] in Hstart. injection Hstart as <-. reflexivity. }
  split; [exact Hlog|].
  exists (Makedirs (output_dir worker)
          :: concat (map (item_events worker env)
                       (enumerate (tasks worker) 1))),
         (map (item_result worker env) (enumerate (tasks worker) 1)).
  assert (Hrun : fst (run worker env) =
                 (Makedirs (output_dir worker)
                  :: concat (map (item_events worker env)
                               (enumerate (tasks worker) 1)))
                 ++ [FinishedSignal
                       (map (item_result worker env)
                          (enumerate (tasks worker) 1))]).
  { now rewrite (run_shape worker env Hmk). }
  assert (Hnone : finished_signals
                    (Makedirs (output_dir worker)
                     :: concat (map (item_events worker env)
                                  (enumerate (tasks worker) 1))) = []).
  { cbn [finished_signals]. apply items_no_finished. }
  assert (Hclick : click (snd (init now)) form env =
          ProgressDialogShown
          :: flat_map (fun e => e :: deliver (snd (init now)) e)
               (Makedirs (output_dir worker)
                :: concat (map (item_events worker env)
                             (enumerate (tasks worker) 1)))
          ++ [FinishedSignal
                (map (item_result worker env) (enumerate (tasks worker) 1));
              ProgressDialogClosed;
              LogText session_log completion_marker;
              InfoBox (u "完了")
                (join (nl ++ nl)
                   (map (item_result worker env)
                      (enumerate (tasks worker) 1)))]).
  { unfold click.
    destruct (start_download (snd (init now)) form) as [ev started] eqn:Es.
    cbn [snd] in Hstart. subst started.
    assert (ev = [ProgressDialogShown]) as ->.
    { unfold start_download in Es.
      destruct (splitlines (urls_text form)); [discriminate|].
      now injection Es as <- _. }
    rewrite Hrun, flat_map_app. reflexivity. }
  repeat split; try assumption.
  rewrite Hclick.
  change (ProgressDialogShown :: ?a ++ ?b)
    with ([ProgressDialogShown] ++ a ++ b).
  rewrite !written_to_app, (written_to_delivered _ _ _ Hnone).
  cbn [written_to app log_path]. rewrite pystr_eqb_refl. reflexivity.
Qed.

End Window.

(* ================================================================== *)
(** ** The percentage of a progress report *)

Section Percent.

Import Worker Trace Examples.

(** C7.  The download phase does not keep the percentage within 0..100:
    for a hook dictionary without ['total_bytes'] (the total size is not
    known) the divisor defaults to 1, and 500 bytes downloaded are
    reported as 50000 percent.  Evaluated on [one_task], both on the hook
    alone and on the whole run. *)
Theorem C7_download_percent_exceeds_100 :
  progress_hook one_task None 1
    {| status := u "downloading";
       downloaded_bytes := Some (VInt 500);
       total_bytes := None |}
  = ([ProgressUpdate 50000 (u "Downloading video (1/1)");
      LogLine session_log (u "Downloading video (1/1)")], None)
  /\ In (50000%Z, u "Downloading video (1/1)")
        (progress_reports (fst (run one_task env_without_total)))
  /\ ~ (0 <= 50000 <= 100)%Z.
Proof.
  split; [vm_compute; reflexivity|].
  split; [vm_compute; left; reflexivity|lia].
Qed.

End Percent.

(* ================================================================== *)
(** ** The theorems at concrete runs *)

Section Concrete.

Import Worker Trace Gui Examples.






(** C5, the claim as stated: within one run the options of two calls
    differ (here in [outtmpl] and in the progress hook). *)
Lemma C5_options_differ_between_items :
  map (fun call => outtmpl (fst call))
      (download_calls (fst (run three_tasks env_fine)))
  = [u "downloads/first.%(ext)s"; u "downloads/%(title)s.%(ext)s";
     u "downloads/third,take.%(ext)s"]
  /\ exists call1 call2,
       In call1 (download_calls (fst (run three_tasks env_fine)))
       /\ In call2 (download_calls (fst (run three_tasks env_fine)))
       /\ fst call1 <> fst call2.
Proof.
  split; [vm_compute; reflexivity|].
  exists (ydl_opts three_tasks (Some (u "first")) 1 false,
          u "https://example.com/a"),
         (ydl_opts three_tasks None 2 false, u "https://example.com/b").
  split; [vm_compute; left; reflexivity|].
  split; [vm_compute; right; left; reflexivity|].
  vm_compute. discriminate.
Qed.

(** C5 as amended, on the first call of that run. *)
Lemma C5_witness :
  In (ydl_opts three_tasks (Some (u "first")) 1 false,
      u "https://example.com/a")
     (download_calls (fst (run three_tasks env_fine)))
  /\ format (ydl_opts three_tasks (Some (u "first")) 1 false)
     = u "bestvideo+bestaudio/best"
  /\ quiet (ydl_opts three_tasks (Some (u "first")) 1 false) = true.
Proof.
  assert (H : In (ydl_opts three_tasks (Some (u "first")) 1 false,
                  u "https://example.com/a")
                 (download_calls (fst (run three_tasks env_fine)))).
  { vm_compute. left. reflexivity. }
  split; [exact H|].
  destruct (C5_options_fixed_part_and_item_part three_tasks env_fine _ _ H)
    as (H1 & _ & _ & H4 & _).
  split; [exact H1|exact H4].
Defined.



(** C8, the claim as stated: two runs started one after the other from
    the same window are given the same log file, whose name was fixed
    when the window was created, and the markers of both runs end up in
    it; and a second window created later within the same second opens
    the very same path. *)
Lemma C8_runs_share_the_window_log :
  snd (start_download window form_three) = Some three_tasks
  /\ snd (start_download window form_other)
     = Some {| tasks := [(u "https://example.com/d", None)];
               output_dir := u "videos"; to_mp3 := false;
               cookies_file := None; log_file := Some session_log |}
  /\ log_path session_log = u "logs/20260307_090500.log"
  /\ filter (pystr_eqb completion_marker)
       (written_to session_log
          (click window form_three env_fine
           ++ click window form_other env_all_fail))
     = [completion_marker; completion_marker]
  /\ morning_later <> morning
  /\ app_log_file (snd (init morning_later)) = session_log.
Proof.
  repeat split; try (vm_compute; reflexivity).
  vm_compute. discriminate.
Qed.

(** C8 as amended, on the first of these two runs. *)
Lemma C8_witness :
  snd (start_download (snd (init morning)) form_three) = Some three_tasks
  /\ makedirs_error env_fine = None
  /\ log_file three_tasks
     = Some {| log_path :=
                 os_path_join (u "logs")
                   (strftime_file morning ++ u ".log") |}
  /\ exists before,
       written_to session_log (click (snd (init morning)) form_three env_fine)
       = written_to session_log before ++ [completion_marker].
Proof.
  split; [vm_compute; reflexivity|]. split; [reflexivity|].
  destruct (C8_window_log_and_completion_marker morning form_three env_fine
              three_tasks ltac:(vm_compute; reflexivity) eq_refl)
    as (_ & Hlog & before & results & _ & _ & _ & Hw).
  split; [exact Hlog|].
  exists before. exact Hw.
Defined.

(** C9, the claim as stated: the text consists of blank lines, the
    check passes and a worker with an empty task list is started, but
    the output directory cannot be created and the finished notification
    is not emitted. *)
Lemma C9_blank_text_no_notification_when_makedirs_fails :
  urls_text form_blank <> []
  /\ forallb Spec.blank (splitlines (urls_text form_blank)) = true
  /\ exists worker,
       snd (start_download window form_blank) = Some worker
       /\ tasks worker = []
       /\ run worker MoreExamples.env_no_directory
          = ([Makedirs (u "downloads")],
             Some (Exception
                     (u "[Errno 13] Permission denied: 'downloads'")))
       /\ finished_signals
            (flat_map (fun e => e :: deliver window e)
               (fst (run worker MoreExamples.env_no_directory))) = []
       /\ finished_signals
            (click window form_blank MoreExamples.env_no_directory) = [].
Proof.
  split; [discriminate|]. split; [reflexivity|].
  eexists. split; [reflexivity|]. repeat split.
Qed.

(** C9 as amended, on the empty text and on a text of blank lines. *)
Lemma C9_witness :
  urls_text form_empty = []
  /\ click window form_empty env_fine
     = [ErrorBox (u "エラー") (u "URLを入力してください")]
  /\ urls_text form_blank <> []
  /\ forallb Spec.blank (splitlines (urls_text form_blank)) = true
  /\ makedirs_error env_fine = None
  /\ exists worker,
       snd (start_download window form_blank) = Some worker
       /\ tasks worker = []
       /\ run worker env_fine
          = ([Makedirs (output_dir worker); FinishedSignal []], None).
Proof.
  split; [reflexivity|].
  split.
  { exact (proj2 (proj1 (C9_empty_text_and_blank_text window form_empty
                           env_fine) eq_refl)). }
  assert (Hne : urls_text form_blank <> []) by discriminate.
  split; [exact Hne|]. split; [reflexivity|]. split; [reflexivity|].
  exact (proj2 (C9_empty_text_and_blank_text window form_blank env_fine)
           Hne eq_refl eq_refl).
Defined.

(** C10 on a worker with a cookies file that is not there. *)
Lemma C10_witness :
  cookies_file three_tasks = Some (u "cookies.txt")
  /\ (forall idx, cookies_exist (item_env env_fine idx) = false)
  /\ run three_tasks env_fine = run (without_cookies three_tasks) env_fine.
Proof.
  split; [reflexivity|].
  split; [intros idx; reflexivity|].
  exact (proj1 (C10_missing_cookies_file_silently_omitted three_tasks
                  env_fine (u "cookies.txt") eq_refl
                  (fun idx => eq_refl))).
Defined.

End Concrete.

(* ================================================================== *)
(** ** Binary64 rounding keeps integer bounds

    [binary_round_aux] truncates to the precision and then rounds to
    nearest even.  A value between two integers [A <= B] stays between
    them: truncation cannot go below [A] or above [B], as both are
    multiples of the unit in the last place, and rounding up can only
    reach [B], not pass it. *)


Section FloatBound.

Import FloatFacts.
Local Open Scope Z_scope.

Lemma digits2_size (p : positive) : digits2_pos p = Pos.size p.
Proof. induction p; simpl; congruence. Qed.

Lemma Zdigits2_bound (m k : Z) :
  0 <= m -> 0 <= k -> m < 2 ^ k -> Zdigits2 m <= k.
Proof.
  intros Hm Hk H. destruct m as [|p|p]; simpl; try lia.
  rewrite digits2_size.
  pose proof (Pos.size_le p) as Hs.
  assert (Hp : (2 ^ Z.pos (Pos.size p) <= 2 * Z.pos p)).
  { rewrite <- Pos2Z.inj_pow. lia. }
  destruct (Z_le_gt_dec (Z.pos (Pos.size p)) k) as [|Hgt]; [assumption|].
  exfalso.
  assert (2 ^ (k + 1) <= 2 ^ Z.pos (Pos.size p)).
  { apply Z.pow_le_mono_r; lia. }
  rewrite Z.pow_add_r in H0 by lia. lia.
Qed.

Lemma iter_pos_nat {A : Type} (f : A -> A) (p : positive) (x : A) :
  iter_pos f p x = Nat.iter (Pos.to_nat p) f x.
Proof.
  revert x. induction p as [p IH|p IH|]; intros x; cbn [iter_pos].
  - rewrite !IH, Pos2Nat.inj_xI, Nat.iter_succ_r, <- Nat.iter_add.
    f_equal. lia.
  - rewrite !IH, Pos2Nat.inj_xO, <- Nat.iter_add.
    f_equal. lia.
  - reflexivity.
Qed.

Lemma shr_1_within (L C : Z) (mrs : shr_record) :
  0 <= L -> within (2 * L) (2 * C) mrs -> within L C (shr_1 mrs).
Proof.
  destruct mrs as [m r s]. unfold within. cbn [shr_m shr_r shr_s].
  intros HL [Hm Hlt].
  destruct m as [|[p|p|]|p]; cbn [shr_1 shr_m shr_r shr_s orb];
    (split; [lia|]); intros H; try specialize (Hlt H); lia.
Qed.

Lemma iter_shr_1_within (n : nat) (L C : Z) (mrs : shr_record) :
  0 <= L ->
  within (2 ^ Z.of_nat n * L) (2 ^ Z.of_nat n * C) mrs ->
  within L C (Nat.iter n shr_1 mrs).
Proof.
  intros HL. revert mrs. induction n as [|n IH]; intros mrs H.
  - cbn [Nat.iter].
    replace (2 ^ Z.of_nat 0 * C) with C in H by (cbn [Z.of_nat]; lia).
    replace (2 ^ Z.of_nat 0 * L) with L in H by (cbn [Z.of_nat]; lia).
    exact H.
  - rewrite Nat.iter_succ_r. apply IH. apply shr_1_within.
    + assert (0 < 2 ^ Z.of_nat n) by (apply Z.pow_pos_nonneg; lia). nia.
    + replace (2 * (2 ^ Z.of_nat n * C)) with (2 ^ Z.of_nat (S n) * C)
        by (rewrite Nat2Z.inj_succ, Z.pow_succ_r by lia; lia).
      replace (2 * (2 ^ Z.of_nat n * L)) with (2 ^ Z.of_nat (S n) * L)
        by (rewrite Nat2Z.inj_succ, Z.pow_succ_r by lia; lia).
      exact H.
Qed.

Lemma shr_within (L C : Z) (mrs : shr_record) (e n : Z) :
  0 <= L ->
  (0 < n -> within (2 ^ n * L) (2 ^ n * C) mrs) ->
  (n <= 0 -> within L C mrs) ->
  within L C (fst (shr mrs e n)) /\ snd (shr mrs e n) = e + Z.max n 0.
Proof.
  intros HL Hpos Hneg. unfold shr. destruct n as [|p|p]; cbn [fst snd].
  - split; [apply Hneg; lia|lia].
  - split; [|lia]. rewrite iter_pos_nat. apply iter_shr_1_within; [exact HL|].
    rewrite positive_nat_Z. apply Hpos. lia.
  - split; [apply Hneg; lia|lia].
Qed.

Lemma fexp64_le (k : Z) : k <= 53 -> fexp PyNum.prec PyNum.emax k <= 0.
Proof. unfold fexp, emin, PyNum.prec, PyNum.emax. lia. Qed.

Lemma record_within (L C m : Z) (l : location) :
  L <= m <= C -> (l <> loc_Exact -> m < C) ->
  within L C (shr_record_of_loc m l).
Proof.
  intros Hm Hl. unfold within.
  destruct l as [|[| |]]; cbn [shr_record_of_loc shr_m shr_r shr_s orb];
    (split; [exact Hm|]); intros H; try discriminate; apply Hl; discriminate.
Qed.

Lemma pow2_split (e n : Z) :
  e + n <= 0 -> 0 <= n -> 2 ^ (- e) = 2 ^ n * 2 ^ (- (e + n)).
Proof.
  intros H1 H2. rewrite <- Z.pow_add_r by lia. f_equal. lia.
Qed.

(** One [shr_fexp] step keeps a value between [A] and [B] between them,
    for integers [A <= B] below [2 ^ 53]. *)
Lemma shr_fexp_within (A B m e : Z) (l : location) :
  0 <= A -> 0 < B < 2 ^ 53 -> e <= 0 ->
  A * 2 ^ (- e) <= m <= B * 2 ^ (- e) ->
  (l <> loc_Exact -> m < B * 2 ^ (- e)) ->
  let '(mrs, e') := shr_fexp PyNum.prec PyNum.emax m e l in
  e' <= 0 /\ within (A * 2 ^ (- e')) (B * 2 ^ (- e')) mrs.
Proof.
  intros HA HB He Hm Hl. unfold shr_fexp.
  set (n := fexp PyNum.prec PyNum.emax (Zdigits2 m + e) - e).
  assert (Hpow : 0 < 2 ^ (- e)) by (apply Z.pow_pos_nonneg; lia).
  assert (Hdig : Zdigits2 m + e <= 53).
  { assert (Zdigits2 m <= 53 - e); [|lia].
    apply Zdigits2_bound; try nia.
    replace (53 - e) with (53 + - e) by lia.
    rewrite Z.pow_add_r by lia. nia. }
  pose proof (fexp64_le _ Hdig) as Hf.
  destruct (shr (shr_record_of_loc m l) e n) as [mrs e'] eqn:E.
  assert (HAe : forall k, k <= 0 -> 0 <= A * 2 ^ (- k)).
  { intros k Hk.
    assert (0 < 2 ^ (- k)) by (apply Z.pow_pos_nonneg; lia). nia. }
  pose proof (shr_within (A * 2 ^ (- (e + Z.max n 0)))
                (B * 2 ^ (- (e + Z.max n 0)))
                (shr_record_of_loc m l) e n ltac:(apply HAe; lia)) as H.
  rewrite E in H. cbn [fst snd] in H.
  destruct H as [H1 H2].
  - intros Hn. rewrite Z.max_l by lia.
    rewrite !Z.mul_assoc, !(Z.mul_comm (2 ^ n)), <- !Z.mul_assoc.
    rewrite <- !(pow2_split e n) by lia.
    apply record_within; assumption.
  - intros Hn. rewrite Z.max_r by lia. rewrite Z.add_0_r.
    apply record_within; assumption.
  - subst e'. split; [lia|exact H1].
Qed.

Lemma round_within (L C : Z) (mrs : shr_record) :
  within L C mrs ->
  L <= round_nearest_even (shr_m mrs) (loc_of_shr_record mrs) <= C.
Proof.
  destruct mrs as [m r s]. unfold within.
  cbn [shr_m shr_r shr_s]. intros [Hm Hlt].
  destruct r, s;
    cbn [loc_of_shr_record round_nearest_even orb] in *;
    try destruct (Z.even m); try specialize (Hlt eq_refl); lia.
Qed.

(** Rounding a value between the integers [A] and [B] gives a value
    between [A] and [B], for [B] below [2 ^ 53]. *)
Lemma binary_round_aux_within (A B mx ex : Z) (lx : location) :
  0 <= A -> 0 < B < 2 ^ 53 -> ex <= 0 ->
  A * 2 ^ (- ex) <= mx <= B * 2 ^ (- ex) ->
  (lx <> loc_Exact -> mx < B * 2 ^ (- ex)) ->
  match binary_round_aux PyNum.prec PyNum.emax false mx ex lx with
  | S754_zero s => s = false /\ A = 0
  | S754_finite s m e =>
      s = false /\ e <= 0 /\ A * 2 ^ (- e) <= Z.pos m <= B * 2 ^ (- e)
  | _ => False
  end.
Proof.
  intros HA HB He Hm Hl. unfold binary_round_aux.
  pose proof (shr_fexp_within A B mx ex lx HA HB He Hm Hl) as H1.
  destruct (shr_fexp PyNum.prec PyNum.emax mx ex lx) as [mrs1 e1].
  destruct H1 as [He1 Hb1]. apply round_within in Hb1.
  pose proof (shr_fexp_within A B _ e1 loc_Exact HA HB He1 Hb1
                ltac:(intros H; now destruct H)) as H2.
  destruct (shr_fexp PyNum.prec PyNum.emax _ e1 loc_Exact) as [mrs2 e2].
  destruct H2 as [He2 [Hm2 _]].
  assert (Hpow : 0 < 2 ^ (- e2)) by (apply Z.pow_pos_nonneg; lia).
  destruct (shr_m mrs2) as [|m|m]; [split; [reflexivity|nia]| |nia].
  replace (e2 <=? PyNum.emax - PyNum.prec) with true.
  - repeat split; [exact He2|lia|lia].
  - symmetry. apply Z.leb_le. unfold PyNum.emax, PyNum.prec. lia.
Qed.

Lemma new_location_exact (n : Z) : new_location n 0 = loc_Exact.
Proof.
  unfold new_location, new_location_even, new_location_odd.
  destruct (Z.even n); reflexivity.
Qed.

(** The quotient of [a <= b], before rounding, is at most one, and it is
    one when [a = b]. *)
Lemma div_core_within (a b : positive) (A : Z) :
  (a <= b)%positive -> (A = 0 \/ A = 1 /\ a = b) ->
  let '(q, e, l) :=
    SFdiv_core_binary PyNum.prec PyNum.emax (Z.pos a) 0 (Z.pos b) 0 in
  e <= 0 /\ A * 2 ^ (- e) <= q <= 1 * 2 ^ (- e)
  /\ (l <> loc_Exact -> q < 1 * 2 ^ (- e)).
Proof.
  intros Hab HA. unfold SFdiv_core_binary.
  set (e := Z.min _ (0 - 0)).
  assert (He : e <= 0) by (subst e; apply Z.le_min_r).
  assert (Hpow : 0 < 2 ^ (- e)) by (apply Z.pow_pos_nonneg; lia).
  set (m := match 0 - 0 - e with
            | 0 => Z.pos a
            | Z.pos _ => Z.shiftl (Z.pos a) (0 - 0 - e)
            | Z.neg _ => 0
            end).
  assert (Hm : m = Z.pos a * 2 ^ (- e)).
  { subst m. replace (0 - 0 - e) with (- e) by lia.
    destruct (- e) as [|p|p] eqn:E; try lia.
    apply Z.shiftl_mul_pow2. lia. }
  pose proof (Z_div_mod m (Z.pos b) ltac:(lia)) as Hdiv.
  destruct (Z.div_eucl m (Z.pos b)) as [q r]. destruct Hdiv as [Hq Hr].
  split; [exact He|]. rewrite Z.mul_1_l.
  assert (Hab' : Z.pos a <= Z.pos b) by lia.
  split; [split|].
  - destruct HA as [->|[-> ->]]; nia.
  - nia.
  - intros Hl. assert (r <> 0).
    { intros ->. apply Hl. apply new_location_exact. }
    nia.
Qed.

Lemma float_100 :
  PyNum.float_of_small_int 100 = S754_finite false 7036874417766400 (-46).
Proof. vm_compute. reflexivity. Qed.

(** [int(a / max(b, 1) * 100)] stays within 0..100 when
    [0 <= a <= b] and [1 <= b], and is 100 when [a = b]. *)
Lemma percent_of_within (a b A : Z) :
  0 <= a <= b -> 1 <= b -> (A = 0 \/ A = 1 /\ a = b) ->
  exists p,
    PyNum.percent_of (VInt a) (VInt b) = inr p /\ 100 * A <= p <= 100.
Proof.
  intros Ha Hb HA. unfold PyNum.percent_of, PyNum.max_with_1.
  rewrite Z.max_l by lia. unfold PyNum.true_div.
  replace (b =? 0) with false by (symmetry; apply Z.eqb_neq; lia).
  destruct b as [|pb|pb]; try lia.
  destruct a as [|pa|pa]; try lia.
  - exists 0. split; [reflexivity|]. destruct HA as [->|[_ H]]; [lia|].
    discriminate.
  - cbn [SFdiv xorb].
    pose proof (div_core_within pa pb A ltac:(lia)) as Hcore.
    destruct (SFdiv_core_binary PyNum.prec PyNum.emax (Z.pos pa) 0
                (Z.pos pb) 0) as [[q e] l].
    destruct Hcore as (He & Hq & Hl).
    { destruct HA as [->|[-> H]]; [now left|right].
      split; [reflexivity|]. now injection H. }
    pose proof (binary_round_aux_within A 1 q e l ltac:(lia) ltac:(lia)
                  He Hq Hl) as Hr.
    destruct (binary_round_aux PyNum.prec PyNum.emax false q e l)
      as [s|s| |s m e1]; try contradiction.
    + destruct Hr as [-> ->]. exists 0. split; [reflexivity|lia].
    + destruct Hr as (-> & He1 & Hm). rewrite float_100. cbn [SFmul xorb].
      assert (Hpow : 0 < 2 ^ (- e1)) by (apply Z.pow_pos_nonneg; lia).
      pose proof (binary_round_aux_within (100 * A) 100
                    (Z.pos (m * 7036874417766400)) (e1 + -46) loc_Exact
                    ltac:(lia) ltac:(lia) ltac:(lia)) as Hr2.
      assert (H46 : 2 ^ 46 = 70368744177664) by reflexivity.
      assert (Hprod : 100 * A * 2 ^ (- (e1 + -46))
                      <= Z.pos (m * 7036874417766400)
                      <= 100 * 2 ^ (- (e1 + -46))).
      { replace (- (e1 + -46)) with (- e1 + 46) by lia.
        rewrite Z.pow_add_r, H46 by lia. rewrite Pos2Z.inj_mul. nia. }
      specialize (Hr2 Hprod ltac:(intros H; now destruct H)).
      destruct (binary_round_aux PyNum.prec PyNum.emax false
                  (Z.pos (m * 7036874417766400)) (e1 + -46) loc_Exact)
        as [s|s| |s m2 e2]; try contradiction.
      * destruct Hr2 as [_ H0]. exists 0. split; [reflexivity|lia].
      * destruct Hr2 as (-> & He2 & Hm2). cbn [PyNum.int_of_float].
        assert (Hpow2 : 0 < 2 ^ (- e2)) by (apply Z.pow_pos_nonneg; lia).
        destruct (0 <=? e2) eqn:E.
        -- apply Z.leb_le in E. assert (e2 = 0) by lia. subst e2.
           eexists. split; [reflexivity|].
           rewrite Z.shiftl_0_r. cbn [Z.opp] in Hm2.
           change (2 ^ 0) with 1 in Hm2. lia.
        -- eexists. split; [reflexivity|].
           rewrite Z.shiftr_div_pow2 by lia. split.
           ++ apply Z.div_le_lower_bound; lia.
           ++ apply Z.div_le_upper_bound; lia.
Qed.

End FloatBound.

(* ================================================================== *)
(** ** The percentage when the byte counts are plausible *)

Section PercentRange.

Import Worker Trace Observe.
Local Open Scope Z_scope.

Variable self : DownloadThread.

(** X1.  A ['downloading'] report with integer counts
    [0 <= downloaded <= total], [1 <= total] (an absent count standing
    for its default) makes the hook emit one progress report and log its
    message, without raising; the percentage is within 0..100, and it is
    exactly 100 when all bytes are there. *)
Theorem progress_hook_percent_in_range (filename : option pystr)
    (idx : nat) (d : HookDict) (a b : Z) :
  status d = u "downloading" ->
  dict_get (downloaded_bytes d) 0 = VInt a ->
  dict_get (total_bytes d) 1 = VInt b ->
  0 <= a <= b -> 1 <= b ->
  exists p,
    progress_hook self filename idx d =
    (ProgressUpdate p
       (u "Downloading " ++ or_else filename (u "video")
        ++ position self idx)
     :: log self (u "Downloading " ++ or_else filename (u "video")
                  ++ position self idx),
     None)
    /\ 0 <= p <= 100
    /\ (a = b -> p = 100).
Proof.
  intros Hs Ha Hb Hab H1.
  destruct (percent_of_within a b 0 Hab H1 (or_introl eq_refl))
    as (p & Hp & Hrange).
  exists p. unfold progress_hook. rewrite Hs, Ha, Hb, Hp.
  split; [reflexivity|]. split; [lia|].
  intros Heq.
  destruct (percent_of_within a b 1 Hab H1 (or_intror (conj eq_refl Heq)))
    as (p' & Hp' & Hrange').
  rewrite Hp in Hp'. injection Hp' as <-. lia.
Qed.

Lemma in_range_app (a b : list Event) :
  in_range a -> in_range b -> in_range (a ++ b).
Proof.
  unfold in_range. rewrite progress_reports_app. intros Ha Hb.
  apply Forall_app. split; assumption.
Qed.

Lemma in_range_log (message : pystr) : in_range (log self message).
Proof. unfold log. destruct (log_file self); constructor. Qed.

Lemma in_range_cons (p : Z) (message : pystr) (more : list Event) :
  0 <= p <= 100 -> in_range more ->
  in_range (ProgressUpdate p message :: more).
Proof. intros Hp Hm. constructor; assumption. Qed.

Lemma in_range_hook (filename : option pystr) (idx : nat) (d : HookDict) :
  plausible d -> in_range (fst (progress_hook self filename idx d)).
Proof.
  intros Hd. unfold progress_hook.
  destruct (pystr_eqb (status d) (u "downloading")) eqn:Es.
  - destruct (Hd Es) as (a & b & Ha & Hb & Hab & H1).
    rewrite Ha, Hb.
    destruct (percent_of_within a b 0 Hab H1 (or_introl eq_refl))
      as (p & -> & Hrange).
    cbn [fst]. apply in_range_cons; [lia|apply in_range_log].
  - destruct (pystr_eqb (status d) (u "finished")); cbn [fst].
    + apply in_range_cons; [lia|apply in_range_log].
    + constructor.
Qed.

Lemma in_range_extract_info (filename : option pystr) (idx : nat)
    (behaviour : Downloader) :
  plausible_downloader behaviour ->
  in_range (fst (extract_info (progress_hook self filename idx) behaviour)).
Proof.
  induction 1 as [info|e|d next Hd Hnext IH]; cbn [extract_info fst];
    try constructor.
  pose proof (in_range_hook filename idx d Hd) as Hh.
  destruct (progress_hook self filename idx d) as [ev raised].
  specialize (IH raised).
  destruct (extract_info (progress_hook self filename idx) (next raised))
    as [ev' outcome].
  cbn [fst] in *. now apply in_range_app.
Qed.

Lemma in_range_scan (idx : nat) (title : pystr) (lines : list pystr) :
  in_range (scan_stdout self idx title lines).
Proof.
  induction lines as [|line more IH]; cbn [scan_stdout]; [constructor|].
  apply in_range_app; [|exact IH].
  destruct (contains (u "time=") line); [|constructor].
  apply in_range_cons; [lia|apply in_range_log].
Qed.

Lemma in_range_convert (idx : nat) (title mp4_file : pystr)
    (behaviour : Transcoder) :
  in_range (fst (convert self idx title mp4_file behaviour)).
Proof.
  unfold convert. destruct behaviour as [e|lines [e|]]; cbn [fst].
  - constructor.
  - apply (in_range_scan idx title lines).
  - apply (in_range_app [Popen _]); [constructor|].
    apply in_range_app; [apply in_range_scan|].
    apply (in_range_app [ProcessWait]); [constructor|].
    apply in_range_cons; [lia|apply in_range_log].
Qed.

Lemma in_range_item (env : RunEnv) (item : nat * Task) :
  plausible_downloader (downloader (item_env env (fst item))) ->
  in_range (item_events self env item).
Proof.
  destruct item as [idx [url filename]]. cbn [fst]. intros Hd.
  unfold item_events, run_item, try_body. cbn [fst snd].
  pose proof (in_range_extract_info filename idx _ Hd) as Hdl.
  destruct (extract_info (progress_hook self filename idx)
              (downloader (item_env env idx))) as [ev_dl got].
  cbn [fst] in Hdl.
  assert (H1 : forall o, in_range (ExtractInfo o url :: ev_dl)).
  { intros o. exact Hdl. }
  destruct got as [e|info].
  { cbn [fst]. apply in_range_app; [apply H1|apply in_range_log]. }
  destruct (title_of filename info) as [e|title].
  { cbn [fst]. apply in_range_app; [apply H1|apply in_range_log]. }
  destruct (to_mp3 self); [|apply H1].
  pose proof (in_range_convert idx title
                (os_path_join (output_dir self) (title ++ u ".mp4"))
                (transcoder (item_env env idx))) as Hcv.
  destruct (convert self idx title _ (transcoder (item_env env idx)))
    as [ev2 [e|mp3_file]]; cbn [fst] in *.
  - apply in_range_app; [|apply in_range_log].
    apply (in_range_app (ExtractInfo _ url :: ev_dl)); [apply H1|exact Hcv].
  - apply (in_range_app (ExtractInfo _ url :: ev_dl)); [apply H1|exact Hcv].
Qed.

(** X2.  When every report of every download is plausible, every
    progress report of the run, of the download phase and of the
    conversion phase, carries a percentage within 0..100. *)
Theorem run_percent_in_range (env : RunEnv) :
  (forall idx, plausible_downloader (downloader (item_env env idx))) ->
  Forall (fun r : Z * pystr => 0 <= fst r <= 100)
         (progress_reports (fst (run self env))).
Proof.
  intros Hd. fold (in_range (fst (run self env))).
  unfold run. destruct (makedirs_error env); [constructor|].
  rewrite for_each_shape. cbn [fst].
  apply (in_range_app [Makedirs _]); [constructor|].
  apply in_range_app; [|constructor].
  induction (enumerate (tasks self) 1) as [|item more IH];
    cbn [map concat]; [constructor|].
  apply in_range_app; [apply in_range_item, Hd|exact IH].
Qed.

(** X3.  A ['downloading'] report whose total is [None] (size not
    known) makes the hook raise before it emits or logs anything; when
    the downloader lets that exception through, the item is recorded as
    failed with the text of the [TypeError], although the download
    itself did not fail. *)
Theorem unknown_total_fails_the_item (idx : nat) (url : pystr)
    (filename : option pystr) (env : ItemEnv) (d : HookDict)
    (next : option PyExc -> Downloader) :
  let type_error :=
    Exception
      (u "'>' not supported between instances of 'int' and 'NoneType'") in
  status d = u "downloading" ->
  total_bytes d = Some VNone ->
  downloader env = Reports d next ->
  next (Some type_error) = Raises type_error ->
  progress_hook self filename idx d = ([], Some type_error)
  /\ run_item self idx (url, filename) env =
     (ExtractInfo (ydl_opts self filename idx (cookies_exist env)) url
      :: log self (error_log url type_error),
      error_text url type_error).
Proof.
  intros type_error Hs Ht Hd Hn.
  assert (Hh : progress_hook self filename idx d = ([], Some type_error)).
  { unfold progress_hook. rewrite Hs, Ht. reflexivity. }
  split; [exact Hh|].
  unfold run_item, try_body. rewrite Hd. cbn [extract_info].
  rewrite Hh, Hn. reflexivity.
Qed.

End PercentRange.

(* ================================================================== *)
(** ** What a run is made of *)

Section Generated.

Import Worker Trace Observe.

Variable self : DownloadThread.

(** Every trace of the worker is put together from a few pieces.  A
    property of traces that holds for the pieces and is kept by
    concatenation holds for the events of a [try] block. *)
Section Pieces.

Variable P : list Event -> Prop.
Hypothesis P_nil : P [].
Hypothesis P_app : forall a b, P a -> P b -> P (a ++ b).
Hypothesis P_extract : forall opts url, P [ExtractInfo opts url].
Hypothesis P_popen : forall cmd, P [Popen cmd].
Hypothesis P_wait : P [ProcessWait].
Hypothesis P_report :
  forall percent message, P (ProgressUpdate percent message
                             :: log self message).

Lemma hook_generated (filename : option pystr) (idx : nat) (d : HookDict) :
  P (fst (progress_hook self filename idx d)).
Proof.
  unfold progress_hook.
  destruct (pystr_eqb (status d) (u "downloading")).
  - destruct (PyNum.percent_of _ _); cbn [fst]; auto.
  - destruct (pystr_eqb (status d) (u "finished")); cbn [fst]; auto.
Qed.

Lemma extract_info_generated (filename : option pystr) (idx : nat)
    (behaviour : Downloader) :
  P (fst (extract_info (progress_hook self filename idx) behaviour)).
Proof.
  induction behaviour as [info|e|d next IH]; cbn [extract_info fst]; auto.
  pose proof (hook_generated filename idx d) as Hh.
  destruct (progress_hook self filename idx d) as [ev raised].
  specialize (IH raised).
  destruct (extract_info (progress_hook self filename idx) (next raised))
    as [ev' outcome].
  cbn [fst] in *. auto.
Qed.

Lemma scan_generated (idx : nat) (title : pystr) (lines : list pystr) :
  P (scan_stdout self idx title lines).
Proof.
  induction lines as [|line more IH]; cbn [scan_stdout]; auto.
  apply P_app; [|exact IH].
  destruct (contains (u "time=") line); auto.
Qed.

Lemma convert_generated (idx : nat) (title mp4_file : pystr)
    (behaviour : Transcoder) :
  P (fst (convert self idx title mp4_file behaviour)).
Proof.
  unfold convert. destruct behaviour as [e|lines [e|]]; cbn [fst]; auto.
  - apply (P_app [Popen _]); auto using scan_generated.
  - apply (P_app [Popen _]); auto.
    apply P_app; [apply scan_generated|].
    apply (P_app [ProcessWait]); auto.
Qed.

Lemma try_body_generated (idx : nat) (task : Task) (env : ItemEnv) :
  P (fst (try_body self idx task env)).
Proof.
  destruct task as [url filename]. unfold try_body.
  pose proof (extract_info_generated filename idx (downloader env)) as Hdl.
  destruct (extract_info (progress_hook self filename idx) (downloader env))
    as [ev_dl got]. cbn [fst] in Hdl.
  assert (H1 : forall o, P (ExtractInfo o url :: ev_dl)).
  { intros o. apply (P_app [ExtractInfo o url]); auto. }
  destruct got as [e|info]; [apply H1|].
  destruct (title_of filename info) as [e|title]; [apply H1|].
  destruct (to_mp3 self); [|apply H1].
  pose proof (convert_generated idx title
                (os_path_join (output_dir self) (title ++ u ".mp4"))
                (transcoder env)) as Hcv.
  destruct (convert self idx title _ (transcoder env))
    as [ev2 [e|mp3_file]]; cbn [fst] in *;
    apply (P_app (ExtractInfo _ url :: ev_dl)); auto.
Qed.

Hypothesis P_log : forall message, P (log self message).
Hypothesis P_makedirs : forall path, P [Makedirs path].
Hypothesis P_finished : forall results, P [FinishedSignal results].

Lemma item_generated (env : RunEnv) (item : nat * Task) :
  P (item_events self env item).
Proof.
  unfold item_events, run_item.
  pose proof (try_body_generated (fst item) (snd item)
                (item_env env (fst item))) as Ht.
  destruct (try_body self (fst item) (snd item) (item_env env (fst item)))
    as [ev [e|[mp4_file mp3_file]]]; cbn [fst] in *; auto.
Qed.

Lemma run_generated (env : RunEnv) : P (fst (run self env)).
Proof.
  unfold run. destruct (makedirs_error env); cbn [fst]; auto.
  rewrite for_each_shape. cbn [fst].
  apply (P_app [Makedirs _]); auto. apply P_app; auto.
  induction (enumerate (tasks self) 1) as [|item more IH];
    cbn [map concat]; auto using item_generated.
Qed.

End Pieces.

(** X4.  The worker stays on its side: the events of a run are calls to
    the outside, emissions of its two signals and lines written to the
    log file it was given; it never touches a widget, never opens a
    message box or a file, and never writes to another log. *)
Theorem run_only_worker_events (env : RunEnv) :
  Forall (worker_event self) (fst (run self env)).
Proof.
  apply run_generated; intros; repeat constructor;
    try (apply Forall_app; split; assumption).
  - unfold log. destruct (log_file self) eqn:E; repeat constructor.
    exact E.
  - unfold log. destruct (log_file self) eqn:E; repeat constructor.
    exact E.
Qed.

Lemma log_messages_app (a b : list Event) :
  log_messages (a ++ b) = log_messages a ++ log_messages b.
Proof.
  induction a as [|e a IH]; cbn [app log_messages]; [reflexivity|].
  destruct e; cbn [app]; now rewrite ?IH.
Qed.

(** X5.  With a log file, the log is the transcript of what the window
    is told: the [try] block of an item logs exactly the messages of its
    progress reports, in the same order, and the only other line an
    iteration logs is the error line when the item fails. *)
Theorem log_is_transcript_of_reports (f : LogFile) (env : RunEnv)
    (idx : nat) (url : pystr) (filename : option pystr) :
  log_file self = Some f ->
  log_messages (item_events self env (idx, (url, filename))) =
  map snd (progress_reports (item_events self env (idx, (url, filename))))
  ++ match snd (try_body self idx (url, filename) (item_env env idx)) with
     | inl e => [error_log url e]
     | inr _ => []
     end.
Proof.
  intros Hlog.
  assert (Ht : log_messages
                 (fst (try_body self idx (url, filename) (item_env env idx)))
               = map snd
                   (progress_reports
                      (fst (try_body self idx (url, filename)
                              (item_env env idx))))).
  { apply try_body_generated; try reflexivity.
    - intros a b Ha Hb.
      now rewrite log_messages_app, progress_reports_app, map_app, Ha, Hb.
    - intros p m. unfold log. rewrite Hlog. reflexivity. }
  unfold item_events, run_item. cbn [fst snd].
  destruct (try_body self idx (url, filename) (item_env env idx))
    as [ev [e|[mp4_file mp3_file]]]; cbn [fst snd] in *.
  - rewrite log_messages_app, progress_reports_app, map_app, Ht.
    unfold log. rewrite Hlog. cbn [log_messages progress_reports map].
    now rewrite app_nil_r.
  - now rewrite app_nil_r.
Qed.

End Generated.

(* ================================================================== *)
(** ** A worker without a log file *)

Section NoLog.

Import Worker Trace Observe.

Variable self : DownloadThread.

Lemma unlogged_app (a b : list Event) :
  unlogged (a ++ b) = unlogged a ++ unlogged b.
Proof. apply filter_app. Qed.

Lemma unlogged_log (message : pystr) : unlogged (log self message) = [].
Proof. unfold log. destruct (log_file self); reflexivity. Qed.

Lemma hook_without_log (filename : option pystr) (idx : nat)
    (d : HookDict) :
  progress_hook (without_log self) filename idx d =
  (unlogged (fst (progress_hook self filename idx d)),
   snd (progress_hook self filename idx d)).
Proof.
  unfold progress_hook.
  change (position (without_log self) idx) with (position self idx).
  destruct (pystr_eqb (status d) (u "downloading")).
  - destruct (PyNum.percent_of _ _); cbn [fst snd unlogged filter];
      [reflexivity|].
    cbn [is_log_line negb]. fold (unlogged (log self
      (u "Downloading " ++ or_else filename (u "video")
       ++ position self idx))).
    now rewrite unlogged_log.
  - destruct (pystr_eqb (status d) (u "finished"));
      cbn [fst snd unlogged filter]; [|reflexivity].
    cbn [is_log_line negb]. fold (unlogged (log self
      (u "Download finished: " ++ or_else filename (u "video")
       ++ position self idx))).
    now rewrite unlogged_log.
Qed.

Lemma extract_info_without_log (filename : option pystr) (idx : nat)
    (behaviour : Downloader) :
  extract_info (progress_hook (without_log self) filename idx) behaviour =
  (unlogged (fst (extract_info (progress_hook self filename idx) behaviour)),
   snd (extract_info (progress_hook self filename idx) behaviour)).
Proof.
  induction behaviour as [info|e|d next IH]; cbn [extract_info];
    try reflexivity.
  rewrite hook_without_log.
  destruct (progress_hook self filename idx d) as [ev raised].
  cbn [fst snd]. rewrite IH.
  destruct (extract_info (progress_hook self filename idx) (next raised))
    as [ev' outcome].
  cbn [fst snd]. now rewrite unlogged_app.
Qed.

Lemma scan_without_log (idx : nat) (title : pystr) (lines : list pystr) :
  scan_stdout (without_log self) idx title lines =
  unlogged (scan_stdout self idx title lines).
Proof.
  induction lines as [|line more IH]; cbn [scan_stdout]; [reflexivity|].
  rewrite unlogged_app, IH. f_equal.
  change (position (without_log self) idx) with (position self idx).
  destruct (contains (u "time=") line); [|reflexivity].
  cbn [unlogged filter is_log_line negb].
  fold (unlogged (log self (u "Converting " ++ title ++ u " to MP3"
                            ++ position self idx))).
  now rewrite unlogged_log.
Qed.

Lemma convert_without_log (idx : nat) (title mp4_file : pystr)
    (behaviour : Transcoder) :
  convert (without_log self) idx title mp4_file behaviour =
  (unlogged (fst (convert self idx title mp4_file behaviour)),
   snd (convert self idx title mp4_file behaviour)).
Proof.
  unfold convert.
  change (output_dir (without_log self)) with (output_dir self).
  destruct behaviour as [e|lines [e|]]; cbn [fst snd];
    rewrite ?scan_without_log; try reflexivity.
  change (Popen ?c :: ?a ++ ?b) with ([Popen c] ++ a ++ b).
  rewrite !unlogged_app. cbn [unlogged filter is_log_line negb app].
  fold (unlogged (log self (u "Conversion finished: " ++ title))).
  now rewrite unlogged_log.
Qed.

Lemma try_body_without_log (idx : nat) (task : Task) (env : ItemEnv) :
  try_body (without_log self) idx task env =
  (unlogged (fst (try_body self idx task env)),
   snd (try_body self idx task env)).
Proof.
  destruct task as [url filename]. unfold try_body.
  rewrite extract_info_without_log.
  change (ydl_opts (without_log self)) with (ydl_opts self).
  change (to_mp3 (without_log self)) with (to_mp3 self).
  change (output_dir (without_log self)) with (output_dir self).
  destruct (extract_info (progress_hook self filename idx) (downloader env))
    as [ev_dl [e|info]]; cbn [fst snd]; [reflexivity|].
  destruct (title_of filename info) as [e|title]; [reflexivity|].
  destruct (to_mp3 self); [|reflexivity].
  rewrite convert_without_log.
  destruct (convert self idx title _ (transcoder env))
    as [ev2 [e|mp3_file]]; cbn [fst snd];
    change (ExtractInfo ?o ?x :: ?a ++ ?b)
      with ((ExtractInfo o x :: a) ++ b);
    now rewrite unlogged_app.
Qed.

Lemma run_item_without_log (idx : nat) (task : Task) (env : ItemEnv) :
  run_item (without_log self) idx task env =
  (unlogged (fst (run_item self idx task env)),
   snd (run_item self idx task env)).
Proof.
  unfold run_item. rewrite try_body_without_log.
  destruct (try_body self idx task env)
    as [ev [e|[mp4_file mp3_file]]]; cbn [fst snd]; [|reflexivity].
  change (log (without_log self) (error_log (fst task) e))
    with (@nil Event).
  now rewrite unlogged_app, unlogged_log.
Qed.

Lemma for_each_without_log (env : RunEnv) (items : list (nat * Task))
    (results : list pystr) :
  for_each (without_log self) env items results =
  (unlogged (fst (for_each self env items results)),
   snd (for_each self env items results)).
Proof.
  revert results. induction items as [|[idx task] more IH];
    intros results; cbn [for_each]; [reflexivity|].
  rewrite run_item_without_log.
  destruct (run_item self idx task (item_env env idx)) as [ev r].
  cbn [fst snd]. rewrite IH.
  destruct (for_each self env more (results ++ [r])) as [ev' results'].
  cbn [fst snd]. now rewrite unlogged_app.
Qed.

(** X6.  The log file is optional and changes nothing else: the run of
    a worker built without a log file is the run of the same worker
    with one, minus its log lines; signals, results, downloader and
    transcoder calls and the way the run ends are the same. *)
Theorem run_without_log_file (env : RunEnv) :
  run (without_log self) env =
  (filter (fun e => negb (is_log_line e)) (fst (run self env)),
   snd (run self env))
  /\ log_messages (fst (run (without_log self) env)) = [].
Proof.
  assert (H : run (without_log self) env =
              (unlogged (fst (run self env)), snd (run self env))).
  { unfold run.
    change (output_dir (without_log self)) with (output_dir self).
    change (tasks (without_log self)) with (tasks self).
    destruct (makedirs_error env); [reflexivity|].
    rewrite for_each_without_log.
    destruct (for_each self env (enumerate (tasks self) 1) [])
      as [ev results].
    cbn [fst snd unlogged filter is_log_line negb].
    fold (unlogged (ev ++ [FinishedSignal results])).
    now rewrite unlogged_app. }
  split; [exact H|].
  rewrite H. cbn [fst]. unfold unlogged. clear H.
  induction (fst (run self env)) as [|e more IH]; [reflexivity|].
  cbn [filter]. destruct e; cbn [is_log_line negb log_messages]; exact IH.
Qed.

End NoLog.

(* ================================================================== *)
(** ** What the result strings name *)

Section Names.

Import Worker Trace Observe.

Variable self : DownloadThread.

Lemma contains_suffix (p a : pystr) : contains p (a ++ p) = true.
Proof.
  rewrite <- (app_nil_r p) at 2. apply contains_infix.
Qed.

Lemma starts_with_app_l (p a b : pystr) :
  starts_with p a = true -> starts_with p (a ++ b) = true.
Proof.
  revert a. induction p as [|y p IH]; intros a; [reflexivity|].
  destruct a as [|x a]; cbn [starts_with app]; [discriminate|].
  intros H. apply andb_true_iff in H as [H1 H2].
  now rewrite H1, (IH a H2).
Qed.

Lemma contains_app_l (p a b : pystr) :
  contains p a = true -> contains p (a ++ b) = true.
Proof.
  induction a as [|x a IH].
  - cbn [contains]. rewrite orb_false_r. intros H.
    apply contains_here. now apply (starts_with_app_l p [] b).
  - cbn [app contains]. intros H. apply orb_true_iff in H as [H|H].
    + apply orb_true_iff. left.
      now apply (starts_with_app_l p (x :: a) b).
    + apply orb_true_iff. right. now apply IH.
Qed.

Lemma contains_app_r (p a b : pystr) :
  contains p b = true -> contains p (a ++ b) = true.
Proof.
  intros H. induction a as [|x a IH]; [exact H|].
  cbn [app contains]. rewrite IH. apply orb_true_r.
Qed.

(** X7.  Nothing of the exception is lost: the error text collected for
    a failed item and the line logged for it both contain the URL and
    the whole text of the exception; and when that text says that the
    content is not available on this app, both also contain the advice
    to use a cookies file. *)
Theorem error_text_keeps_the_exception (url : pystr) (e : PyExc) :
  contains (str_of_exc e) (error_text url e) = true
  /\ contains (str_of_exc e) (error_log url e) = true
  /\ (contains app_only_marker (str_of_exc e) = true ->
      contains app_only_hint (error_text url e) = true
      /\ contains app_only_hint (error_log url e) = true)
  /\ (contains app_only_marker (str_of_exc e) = false ->
      error_text url e = u "URL: " ++ url ++ u " でエラー発生: " ++ str_of_exc e).
Proof.
  assert (Hend : forall p a b c : pystr,
             contains p (a ++ b ++ c ++ p) = true).
  { intros p a b c.
    replace (a ++ b ++ c ++ p) with ((a ++ b ++ c) ++ p)
      by (now rewrite <- !app_assoc).
    apply contains_suffix. }
  assert (Hend2 : forall p a b c d : pystr,
             contains p (a ++ b ++ c ++ d ++ p) = true).
  { intros p a b c d.
    replace (a ++ b ++ c ++ d ++ p) with ((a ++ b ++ c ++ d) ++ p)
      by (now rewrite <- !app_assoc).
    apply contains_suffix. }
  assert (Hmid : forall p a b c d : pystr,
             contains p (a ++ b ++ c ++ p ++ d) = true).
  { intros p a b c d.
    replace (a ++ b ++ c ++ p ++ d) with ((a ++ b ++ c) ++ p ++ d)
      by (now rewrite <- !app_assoc).
    apply contains_infix. }
  unfold error_text, error_log, err_msg_of.
  destruct (contains app_only_marker (str_of_exc e)).
  - split; [apply Hmid|]. split; [apply Hmid|].
    split; [|discriminate]. intros _. split; apply Hend2.
  - split; [apply Hend|]. split; [apply Hend|].
    split; [discriminate|reflexivity].
Qed.

(** X8.  When an item is converted, the two lines of its result string
    are the two files of the transcoder command that was run for it: the
    first line is the input the command reads, the second the output it
    writes; and that command is the only one started for the item. *)
Theorem result_names_the_transcoder_files (idx : nat) (url : pystr)
    (filename : option pystr) (env : ItemEnv) (mp4_file mp3_file : pystr) :
  snd (try_body self idx (url, filename) env)
  = inr (mp4_file, Some mp3_file) ->
  popen_calls (fst (try_body self idx (url, filename) env))
  = [[u "ffmpeg"; u "-i"; mp4_file; u "-vn"; u "-ab"; u "192k";
      u "-ar"; u "44100"; u "-y"; mp3_file]]
  /\ snd (run_item self idx (url, filename) env)
     = mp4_file ++ nl ++ mp3_file.
Proof.
  intros H.
  destruct (try_body_success self idx url filename env mp4_file
              (Some mp3_file) H) as (info & title & Hdl & Ht & -> & Hmp3).
  destruct (to_mp3 self) eqn:Emp3; [|discriminate].
  injection Hmp3 as ->.
  split.
  - clear H. unfold try_body.
    pose proof (extract_info_no_popen self filename idx (downloader env))
      as Hno.
    destruct (extract_info (progress_hook self filename idx)
                (downloader env)) as [ev_dl got].
    cbn [fst snd] in *. subst got. rewrite Ht, Emp3. unfold convert.
    destruct (transcoder env) as [e|lines [e|]]; cbn [fst];
      change (ExtractInfo ?o ?x :: ?a ++ ?b)
        with ((ExtractInfo o x :: a) ++ b);
      rewrite popen_calls_app; cbn [popen_calls]; rewrite Hno;
      cbn [app]; f_equal.
    + apply report_no_popen, scan_stdout_report.
    + rewrite popen_calls_app,
        (report_no_popen _ (scan_stdout_report self _ _ _)).
      cbn [popen_calls app]. apply report_no_popen, log_report.
  - unfold run_item.
    destruct (try_body self idx (url, filename) env) as [ev r].
    cbn [snd] in H. subst r. cbn [snd]. apply success_text_mp3.
Qed.

End Names.

(* ================================================================== *)
(** ** What [start_download] hands to the worker *)

Section StartDownload.

Import Worker Trace Observe Gui.

Lemma lstrip_no_lead (s : pystr) : no_lead (lstrip s).
Proof.
  induction s as [|c s IH]; cbn [lstrip]; [exact I|].
  destruct (isspace c) eqn:E; [exact IH|exact E].
Qed.

Lemma lstrip_fixed (s : pystr) : no_lead s -> lstrip s = s.
Proof. destruct s as [|c s]; cbn [no_lead lstrip]; [|intros ->]; reflexivity. Qed.

Lemma lstrip_keeps_last (a : pystr) (c : N) :
  isspace c = false -> exists x, lstrip (a ++ [c]) = x ++ [c].
Proof.
  intros Hc. induction a as [|y a IH]; cbn [app lstrip].
  - rewrite Hc. now exists [].
  - destruct (isspace y); [exact IH|]. now exists (y :: a).
Qed.

Lemma rstrip_keeps_lead (s : pystr) : no_lead s -> no_lead (rstrip s).
Proof.
  unfold rstrip. destruct s as [|c s]; [intros _; exact I|].
  cbn [no_lead rev]. intros Hc.
  destruct (lstrip_keeps_last (rev s) c Hc) as [x ->].
  rewrite rev_app_distr. exact Hc.
Qed.

Lemma strip_stripped (s : pystr) : stripped (strip s).
Proof.
  unfold stripped, strip. split.
  - apply rstrip_keeps_lead, lstrip_no_lead.
  - unfold rstrip. rewrite rev_involutive. apply lstrip_no_lead.
Qed.

Lemma strip_fixed (s : pystr) : stripped s -> strip s = s.
Proof.
  intros [H1 H2]. unfold strip, rstrip.
  now rewrite (lstrip_fixed s H1), (lstrip_fixed _ H2), rev_involutive.
Qed.

Lemma lstrip_incl (s : pystr) (c : N) : In c (lstrip s) -> In c s.
Proof.
  induction s as [|y s IH]; cbn [lstrip]; [tauto|].
  destruct (isspace y); [|tauto]. intros H. right. now apply IH.
Qed.

Lemma strip_incl (s : pystr) (c : N) : In c (strip s) -> In c s.
Proof.
  unfold strip, rstrip. intros H.
  apply in_rev, lstrip_incl in H. apply in_rev in H.
  now apply lstrip_incl.
Qed.

Lemma firstn_incl {A : Type} (n : nat) (l : list A) (x : A) :
  In x (firstn n l) -> In x l.
Proof.
  revert l. induction n as [|n IH]; intros [|y l]; simpl; try tauto.
  intros [H|H]; [now left|right; now apply IH].
Qed.

Lemma task_of_line_well_formed (line : pystr) :
  well_formed (Spec.task_of_line line).
Proof.
  unfold Spec.task_of_line, well_formed.
  destruct (Spec.first_comma line) as [i|] eqn:E; cbn [fst snd].
  - destruct (first_comma_spec line i E) as [_ Hno].
    split; [apply strip_stripped|]. split; [|apply strip_stripped].
    intros H. apply Hno. now apply strip_incl in H.
  - split; [apply strip_stripped|]. split; [|exact I].
    intros H. apply (first_comma_none line E). now apply strip_incl in H.
Qed.

(** X9.  Every task a worker is started with has a URL without leading
    or trailing whitespace and without a comma, and a file name, when
    there is one, without leading or trailing whitespace; there is one
    task per line that is not blank, so never more tasks than lines. *)
Theorem started_tasks_well_formed (self : YouTubeDownloader) (form : Form)
    (worker : DownloadThread) :
  snd (start_download self form) = Some worker ->
  Forall well_formed (tasks worker)
  /\ length (tasks worker)
     = length (filter (fun line => negb (Spec.blank line))
                 (splitlines (urls_text form)))
  /\ length (tasks worker) <= length (splitlines (urls_text form)).
Proof.
  intros H. unfold start_download in H.
  destruct (splitlines (urls_text form)) as [|l ls] eqn:E; [discriminate|].
  cbn [snd] in H. rewrite collect_tasks_spec in H. injection H as <-.
  cbn [tasks app].
  split; [|split].
  - rewrite Forall_map. apply Forall_forall. intros line _.
    apply task_of_line_well_formed.
  - apply length_map.
  - rewrite length_map. exact (filter_length_le _ (l :: ls)).
Qed.

(** X10.  The other fields of a started worker: the output directory
    is the stripped folder text, or ["downloads"] when that text is
    blank, so it is never empty; the cookies file is the stripped text
    of its entry, or [None] when that is blank, so it is never the empty
    string; the conversion flag is the check box, and the log file is
    the one of the window. *)
Theorem started_worker_fields (self : YouTubeDownloader) (form : Form)
    (worker : DownloadThread) :
  snd (start_download self form) = Some worker ->
  output_dir worker
  = (if Spec.blank (folder_entry form) then u "downloads"
     else strip (folder_entry form))
  /\ output_dir worker <> []
  /\ cookies_file worker
     = (if Spec.blank (cookies_entry form) then None
        else Some (strip (cookies_entry form)))
  /\ cookies_file worker <> Some []
  /\ to_mp3 worker = mp3_checkbox form
  /\ log_file worker = Some (app_log_file self).
Proof.
  intros H. unfold start_download in H.
  destruct (splitlines (urls_text form)) as [|l ls]; [discriminate|].
  cbn [snd] in H. injection H as <-.
  cbn [output_dir cookies_file to_mp3 log_file].
  rewrite <- !not_strip_blank.
  destruct (strip (folder_entry form)) as [|c r] eqn:Ef;
    destruct (strip (cookies_entry form)) as [|c' r'] eqn:Ec;
    cbn [truthy negb]; repeat split; discriminate.
Qed.

Lemma nonblank_splitlines_newline (n : nat) (s cur : pystr) :
  length s <= n ->
  filter (fun line => negb (Spec.blank line))
         (splitlines_from cur (s ++ nl))
  = filter (fun line => negb (Spec.blank line)) (splitlines_from cur s).
Proof.
  revert s cur. induction n as [|n IH]; intros [|c rest] cur Hlen;
    cbn [length] in Hlen; try lia.
  - destruct cur; reflexivity.
  - destruct cur; reflexivity.
  - cbn [app splitlines_from]. destruct (is_linebreak c).
    + destruct (c =? 13)%N.
      * destruct rest as [|c' rest'].
        -- reflexivity.
        -- cbn [app]. destruct (c' =? 10)%N; cbn [filter].
           ++ rewrite (IH rest' []) by (cbn [length] in Hlen; lia).
              reflexivity.
           ++ rewrite <- (IH (c' :: rest') []) by lia. reflexivity.
      * cbn [filter]. rewrite (IH rest []) by lia. reflexivity.
    + apply IH. lia.
Qed.

(** X11.  A newline added at the end of the text never changes the task
    list. *)
Theorem trailing_newline_changes_no_task (text : pystr) :
  collect_tasks (splitlines (text ++ nl)) []
  = collect_tasks (splitlines text) [].
Proof.
  rewrite !collect_tasks_spec. cbn [app]. f_equal. unfold splitlines.
  apply (nonblank_splitlines_newline (length text)). lia.
Qed.

End StartDownload.

(* ================================================================== *)
(** ** The window during and after a run *)

Section Clicks.

Import Worker Trace Observe Gui Session.

Variable self : YouTubeDownloader.

Lemma bar_settings_app (a b : list Event) :
  bar_settings (a ++ b) = bar_settings a ++ bar_settings b.
Proof.
  induction a as [|e a IH]; cbn [app bar_settings]; [reflexivity|].
  destruct e; cbn [app]; now rewrite ?IH.
Qed.

Lemma message_boxes_app (a b : list Event) :
  message_boxes (a ++ b) = message_boxes a ++ message_boxes b.
Proof.
  induction a as [|e a IH]; cbn [app message_boxes]; [reflexivity|].
  destruct e; cbn [app]; now rewrite ?IH.
Qed.

Lemma text_writes_app (a b : list Event) :
  text_writes (a ++ b) = text_writes a ++ text_writes b.
Proof.
  induction a as [|e a IH]; cbn [app text_writes]; [reflexivity|].
  destruct e; cbn [app]; now rewrite ?IH.
Qed.

(** What the slots make of the trace of a worker. *)
Lemma delivered (worker : DownloadThread) (env : RunEnv) :
  let seen :=
    flat_map (fun e => e :: deliver self e) (fst (run worker env)) in
  bar_settings seen = map shown (progress_reports (fst (run worker env)))
  /\ message_boxes seen
     = map finished_box (finished_signals (fst (run worker env)))
  /\ text_writes seen
     = map (fun _ => completion_marker)
           (finished_signals (fst (run worker env))).
Proof.
  cbv zeta.
  apply (run_generated worker
           (fun t =>
              bar_settings (flat_map (fun e => e :: deliver self e) t)
              = map shown (progress_reports t)
              /\ message_boxes (flat_map (fun e => e :: deliver self e) t)
                 = map finished_box (finished_signals t)
              /\ text_writes (flat_map (fun e => e :: deliver self e) t)
                 = map (fun _ => completion_marker) (finished_signals t)));
    try (repeat split; reflexivity).
  - intros a b (Ha1 & Ha2 & Ha3) (Hb1 & Hb2 & Hb3).
    rewrite flat_map_app, bar_settings_app, message_boxes_app,
      text_writes_app, progress_reports_app, finished_signals_app,
      !map_app.
    now rewrite Ha1, Ha2, Ha3, Hb1, Hb2, Hb3.
  - intros p m. unfold log. destruct (log_file worker);
      repeat split; reflexivity.
  - intros m. unfold log. destruct (log_file worker);
      repeat split; reflexivity.
Qed.

Lemma click_started (form : Form) (env : RunEnv) (worker : DownloadThread) :
  snd (start_download self form) = Some worker ->
  click self form env =
  ProgressDialogShown
  :: flat_map (fun e => e :: deliver self e) (fst (run worker env)).
Proof.
  intros H. unfold click.
  destruct (start_download self form) as [ev started] eqn:Es.
  cbn [snd] in H. subst started.
  unfold start_download in Es.
  destruct (splitlines (urls_text form)); [discriminate|].
  now injection Es as <- _.
Qed.

Lemma finished_signals_run (worker : DownloadThread) (env : RunEnv) :
  finished_signals (fst (run worker env)) =
  match makedirs_error env with
  | Some _ => []
  | None => [map (item_result worker env) (enumerate (tasks worker) 1)]
  end.
Proof.
  unfold run. destruct (makedirs_error env); [reflexivity|].
  rewrite for_each_shape. cbn [fst finished_signals].
  now rewrite finished_signals_app, items_no_finished.
Qed.

Lemma c_int_small (z : Z) :
  (- 2 ^ 31 <= z < 2 ^ 31)%Z -> PyNum.c_int z = z.
Proof.
  intros H. unfold PyNum.c_int.
  rewrite Z.mod_small by lia. lia.
Qed.

(** X12.  The progress bar shows what the worker reports: during a
    click that starts a worker, the bar is set once per progress report
    of the run, in the same order, to the value the slot receives and to
    the text ["<message> - <value>%"].  The slot receives the reported
    percentage as the 32-bit C [int] of the signal: unchanged when it is
    within [-2^31 .. 2^31 - 1], taken modulo [2^32] otherwise (so
    2147483700 arrives as -2147483596). *)
Theorem progress_bar_follows_reports (form : Form) (env : RunEnv)
    (worker : DownloadThread) :
  snd (start_download self form) = Some worker ->
  bar_settings (click self form env) =
  map (fun r : Z * pystr =>
         (PyNum.c_int (fst r),
          snd r ++ u " - " ++ str_of_Z (PyNum.c_int (fst r)) ++ u "%"))
      (progress_reports (fst (run worker env)))
  /\ (forall z, (- 2 ^ 31 <= z < 2 ^ 31)%Z -> PyNum.c_int z = z)
  /\ (forall z, (- 2 ^ 31 <= PyNum.c_int z < 2 ^ 31)%Z
                /\ ((PyNum.c_int z - z) mod 2 ^ 32 = 0)%Z)
  /\ PyNum.c_int 2147483700 = (-2147483596)%Z.
Proof.
  intros H. split; [|split; [|split]].
  - rewrite (click_started form env worker H).
    cbn [bar_settings]. apply (delivered worker env).
  - exact c_int_small.
  - intros z. unfold PyNum.c_int.
    pose proof (Z.mod_pos_bound (z + 2 ^ 31) (2 ^ 32) ltac:(lia)) as Hb.
    split; [lia|].
    replace ((z + 2 ^ 31) mod 2 ^ 32 - 2 ^ 31 - z)%Z
      with ((z + 2 ^ 31) mod 2 ^ 32 - (z + 2 ^ 31))%Z by lia.
    rewrite Zminus_mod, Z.mod_mod, Z.sub_diag by lia. reflexivity.
  - reflexivity.
Qed.

(** X13.  When the output directory cannot be created, the click ends
    with the progress dialog open: the worker stops at that call, so
    nothing is downloaded, the dialog is never closed, no message box
    appears and no completion marker is written. *)
Theorem click_when_makedirs_fails (form : Form) (env : RunEnv)
    (worker : DownloadThread) (e : PyExc) :
  snd (start_download self form) = Some worker ->
  makedirs_error env = Some e ->
  click self form env = [ProgressDialogShown; Makedirs (output_dir worker)]
  /\ snd (run worker env) = Some e
  /\ download_calls (click self form env) = []
  /\ message_boxes (click self form env) = []
  /\ text_writes (click self form env) = []
  /\ ~ In ProgressDialogClosed (click self form env).
Proof.
  intros H Hmk. rewrite (click_started form env worker H).
  unfold run. rewrite Hmk. cbn [fst snd flat_map deliver app].
  repeat split. intros [Hc|[Hc|[]]]; discriminate.
Qed.


Lemma text_writes_click (form : Form) (env : RunEnv) :
  text_writes (click self form env) =
  if completes (form, env) then [completion_marker] else [].
Proof.
  unfold completes. cbn [fst snd].
  destruct (splitlines (urls_text form)) as [|l ls] eqn:E.
  - unfold click, start_download. rewrite E. reflexivity.
  - assert (Hs : exists worker, snd (start_download self form) = Some worker).
    { unfold start_download. rewrite E. cbn [snd]. eauto. }
    destruct Hs as [worker Hs].
    rewrite (click_started form env worker Hs). cbn [text_writes].
    destruct (delivered worker env) as (_ & _ & ->).
    rewrite finished_signals_run.
    destruct (makedirs_error env); reflexivity.
Qed.

(** X15.  Over any sequence of clicks in one window, the texts written
    to the log without a timestamp are completion markers and nothing
    else, one for every click whose worker reached its finished
    notification: none for a click on an empty text, none for a run that
    died creating the output directory. *)
Theorem one_marker_per_completed_run (inputs : list (Form * RunEnv)) :
  text_writes (clicks self inputs) =
  repeat completion_marker (length (filter completes inputs)).
Proof.
  induction inputs as [|[form env] more IH]; cbn [clicks filter];
    [reflexivity|].
  rewrite text_writes_app, text_writes_click, IH.
  destruct (completes (form, env)); reflexivity.
Qed.

(** X16.  A cancelled file dialog (it returns the empty string) leaves
    the form as it is; a chosen folder becomes the output directory of
    the worker started next, and a chosen cookies file its cookies
    file, both stripped, provided they are not blank. *)
Theorem browse_then_start (form : Form) (chosen : pystr)
    (worker : DownloadThread) :
  browse_folder form [] = form
  /\ browse_cookies form [] = form
  /\ (Spec.blank chosen = false ->
      snd (start_download self (browse_folder form chosen)) = Some worker ->
      output_dir worker = strip chosen)
  /\ (Spec.blank chosen = false ->
      snd (start_download self (browse_cookies form chosen)) = Some worker ->
      cookies_file worker = Some (strip chosen)).
Proof.
  split; [reflexivity|]. split; [reflexivity|].
  assert (Ht : Spec.blank chosen = false -> truthy chosen = true).
  { destruct chosen; [discriminate|reflexivity]. }
  split; intros Hb H; unfold browse_folder, browse_cookies in H;
    rewrite (Ht Hb) in H; unfold start_download in H;
    cbn [urls_text folder_entry cookies_entry] in H;
    destruct (splitlines (urls_text form)); try discriminate;
    cbn [snd] in H; injection H as <-;
    cbn [output_dir cookies_file];
    rewrite <- not_strip_blank in Hb;
    destruct (truthy (strip chosen)); try discriminate; reflexivity.
Qed.

End Clicks.

(* ================================================================== *)
(** ** Template and reported path *)

Section Template.

Import Worker Trace.

Variable self : DownloadThread.

Lemma os_path_join_app (a x y : pystr) :
  truthy x = true -> os_path_join a (x ++ y) = os_path_join a x ++ y.
Proof.
  destruct x as [|c x]; [discriminate|]. intros _.
  unfold os_path_join. cbn [app].
  assert (Hs : starts_with (u "/") (c :: x ++ y)
               = starts_with (u "/") (c :: x)).
  { change (u "/") with [47%N]. cbn [starts_with].
    now rewrite !andb_true_r. }
  rewrite Hs. destruct (starts_with (u "/") (c :: x)); [reflexivity|].
  destruct (negb (truthy a) || ends_with (u "/") a);
    now rewrite <- ?app_assoc.
Qed.

(** X17.  For a task with a file name, the video path in the result is
    the output template handed to the downloader with its extension
    placeholder replaced by [mp4], the merge format of the options; the
    audio path is the same stem with [mp3]. *)
Theorem named_task_paths_follow_template (idx : nat) (url name : pystr)
    (env : ItemEnv) (mp4_file : pystr) (mp3_file : option pystr) :
  truthy name = true ->
  snd (try_body self idx (url, Some name) env) = inr (mp4_file, mp3_file) ->
  let opts := ydl_opts self (Some name) idx (cookies_exist env) in
  let stem := os_path_join (output_dir self) (name ++ u ".") in
  outtmpl opts = stem ++ u "%(ext)s"
  /\ mp4_file = stem ++ merge_output_format opts
  /\ forall p, mp3_file = Some p -> p = stem ++ u "mp3".
Proof.
  intros Hn H opts stem.
  assert (Hdot : truthy (name ++ u ".") = true)
    by (apply truthy_app_r; reflexivity).
  destruct (try_body_success self idx url (Some name) env mp4_file
              mp3_file H) as (info & title & _ & Ht & -> & ->).
  unfold title_of in Ht. cbn [truthy_opt or_else] in Ht.
  rewrite Hn in Ht. injection Ht as <-.
  subst opts stem. cbn [ydl_opts outtmpl merge_output_format].
  rewrite Hn, <- !os_path_join_app by exact Hdot.
  rewrite <- !app_assoc.
  split; [reflexivity|]. split; [reflexivity|].
  intros p Hp. destruct (to_mp3 self); [|discriminate].
  injection Hp as <-. reflexivity.
Qed.

End Template.

(* ================================================================== *)
(** ** The name of the log file *)

Section LogName.

Import Gui Stamp.

Lemma below_in (bound n : N) : (n < bound)%N -> In n (below bound).
Proof.
  intros H. unfold below. apply in_map_iff. exists (N.to_nat n).
  split; [apply N2Nat.id|]. apply in_seq. lia.
Qed.

Lemma pads_well_2 (n : N) : (n < 100)%N -> pads_well 2 n = true.
Proof.
  assert (H : forallb (pads_well 2) (below 100) = true)
    by (vm_compute; reflexivity).
  intros Hn. apply (proj1 (forallb_forall _ _) H).
  apply below_in. exact Hn.
Qed.

Lemma pads_well_4 (n : N) : (n < 10000)%N -> pads_well 4 n = true.
Proof.
  assert (H : forallb (pads_well 4) (below 10000) = true)
    by (vm_compute; reflexivity).
  intros Hn. apply (proj1 (forallb_forall _ _) H).
  apply below_in. exact Hn.
Qed.

Lemma pads_well_spec (width : nat) (n : N) :
  pads_well width n = true ->
  length (zero_padded width n) = width
  /\ starts_with (u "/") (zero_padded width n) = false
  /\ N_of_digits (zero_padded width n) = n.
Proof.
  unfold pads_well. intros H.
  apply andb_true_iff in H as [H H3]. apply andb_true_iff in H as [H1 H2].
  split; [now apply Nat.eqb_eq|].
  split; [now apply negb_true_iff|now apply N.eqb_eq].
Qed.

(** The stamp of a valid moment reads back as its six numbers. *)
Lemma read_stamp_strftime (t : DateTime) :
  valid t ->
  read_stamp (strftime_file t)
  = [year t; month t; day t; hour t; minute t; second t]
  /\ starts_with (u "/") (strftime_file t ++ u ".log") = false.
Proof.
  intros ([_ Hy] & Hm & Hd & Hh & Hmi & Hs). unfold strftime_file.
  destruct (pads_well_spec 4 _ (pads_well_4 _ Hy)) as (Ly & Sy & Ny).
  destruct (pads_well_spec 2 _ (pads_well_2 _ Hm)) as (Lm & _ & Nm).
  destruct (pads_well_spec 2 _ (pads_well_2 _ Hd)) as (Ld & _ & Nd).
  destruct (pads_well_spec 2 _ (pads_well_2 _ Hh)) as (Lh & _ & Nh).
  destruct (pads_well_spec 2 _ (pads_well_2 _ Hmi)) as (Lmi & _ & Nmi).
  destruct (pads_well_spec 2 _ (pads_well_2 _ Hs)) as (Ls & _ & Ns).
  destruct (zero_padded 4 (year t)) as [|y1 [|y2 [|y3 [|y4 [|]]]]];
    try discriminate.
  destruct (zero_padded 2 (month t)) as [|m1 [|m2 [|]]]; try discriminate.
  destruct (zero_padded 2 (day t)) as [|d1 [|d2 [|]]]; try discriminate.
  destruct (zero_padded 2 (hour t)) as [|h1 [|h2 [|]]]; try discriminate.
  destruct (zero_padded 2 (minute t)) as [|i1 [|i2 [|]]]; try discriminate.
  destruct (zero_padded 2 (second t)) as [|s1 [|s2 [|]]]; try discriminate.
  change (u "_") with [95%N].
  cbn [app]. unfold read_stamp. cbn [firstn skipn].
  rewrite Ny, Nm, Nd, Nh, Nmi, Ns. split; [reflexivity|].
  change (u "/") with [47%N] in *. cbn [starts_with] in *.
  now rewrite andb_true_r in *.
Qed.

(** X18.  Two windows get the same log file exactly when they are
    created within the same second: the path is ["logs/"], the stamp
    and [".log"], and the stamp determines year, month, day, hour,
    minute and second (and nothing finer). *)
Theorem log_path_same_iff_same_second (t1 t2 : DateTime) :
  valid t1 -> valid t2 ->
  (log_path (app_log_file (snd (init t1)))
   = log_path (app_log_file (snd (init t2)))
   <-> same_second t1 t2)
  /\ log_path (app_log_file (snd (init t1)))
     = u "logs/" ++ strftime_file t1 ++ u ".log".
Proof.
  intros H1 H2.
  destruct (read_stamp_strftime t1 H1) as [R1 S1].
  destruct (read_stamp_strftime t2 H2) as [R2 S2].
  assert (Hpath : forall t,
             starts_with (u "/") (strftime_file t ++ u ".log") = false ->
             log_path (app_log_file (snd (init t)))
             = u "logs/" ++ strftime_file t ++ u ".log").
  { intros t St. unfold init, create_logger. cbn [snd app_log_file log_path].
    unfold os_path_join. rewrite St. reflexivity. }
  split; [|exact (Hpath t1 S1)].
  rewrite (Hpath t1 S1), (Hpath t2 S2). split.
  - intros H. apply app_inv_head, app_inv_tail in H.
    rewrite H in R1. rewrite R1 in R2.
    injection R2 as E1 E2 E3 E4 E5 E6. unfold same_second. tauto.
  - intros (Hy & Hm & Hd & Hh & Hmi & Hs). unfold strftime_file.
    now rewrite Hy, Hm, Hd, Hh, Hmi, Hs.
Qed.

End LogName.

(* ================================================================== *)
(** ** Titles, empty names, and what an item's result depends on *)

Section ItemOutcome.

Import Worker Trace.

Variable self : DownloadThread.

(** X19.  A task without a usable file name takes its title from what
    the downloader returned: with no ['title'] entry the video is
    reported as [output.mp4] in the output directory, with a title as
    [<title>.mp4]; and when the downloader returned [None] the item
    fails with the text of the [AttributeError], before any
    transcoding. *)
Theorem unnamed_task_title_fallback (idx : nat) (url : pystr)
    (filename : option pystr) (env : ItemEnv) (info : InfoResult) :
  truthy_opt filename = false ->
  snd (extract_info (progress_hook self filename idx) (downloader env))
  = inr info ->
  match info with
  | InfoDict None =>
      forall mp4_file mp3_file,
        snd (try_body self idx (url, filename) env)
        = inr (mp4_file, mp3_file) ->
        mp4_file = os_path_join (output_dir self) (u "output.mp4")
  | InfoDict (Some title) =>
      forall mp4_file mp3_file,
        snd (try_body self idx (url, filename) env)
        = inr (mp4_file, mp3_file) ->
        mp4_file = os_path_join (output_dir self) (title ++ u ".mp4")
  | InfoNone =>
      snd (run_item self idx (url, filename) env)
      = error_text url
          (Exception (u "'NoneType' object has no attribute 'get'"))
      /\ popen_calls (fst (run_item self idx (url, filename) env)) = []
  end.
Proof.
  intros Hname Hdl.
  assert (Hsucc : forall title mp4_file mp3_file,
             title_of filename info = inr title ->
             snd (try_body self idx (url, filename) env)
             = inr (mp4_file, mp3_file) ->
             mp4_file = os_path_join (output_dir self) (title ++ u ".mp4")).
  { intros title mp4_file mp3_file Ht H.
    destruct (try_body_success self idx url filename env mp4_file mp3_file H)
      as (info' & title' & Hdl' & Ht' & -> & _).
    rewrite Hdl in Hdl'. injection Hdl' as <-.
    rewrite Ht in Ht'. now injection Ht' as <-. }
  destruct info as [|[title|]].
  - unfold run_item, try_body.
    pose proof (extract_info_no_popen self filename idx (downloader env))
      as Hno.
    destruct (extract_info (progress_hook self filename idx)
                (downloader env)) as [ev_dl got].
    cbn [fst snd] in *. subst got. unfold title_of. rewrite Hname.
    cbn [fst snd]. split; [reflexivity|].
    change (ExtractInfo ?o ?x :: ?a ++ ?b)
      with ((ExtractInfo o x :: a) ++ b).
    rewrite popen_calls_app. cbn [popen_calls]. rewrite Hno.
    apply report_no_popen, log_report.
  - intros mp4_file mp3_file. apply Hsucc.
    unfold title_of. now rewrite Hname.
  - intros mp4_file mp3_file H.
    apply (Hsucc (u "output") mp4_file mp3_file); [|exact H].
    unfold title_of. now rewrite Hname.
Qed.

(** X20.  An empty file name (a line that ends with its comma) counts
    as no file name: the same output template, the same events after
    the downloader call, the same result string. *)
Theorem empty_name_is_no_name (idx : nat) (url : pystr) (env : ItemEnv) :
  outtmpl (ydl_opts self (Some []) idx (cookies_exist env))
  = outtmpl (ydl_opts self None idx (cookies_exist env))
  /\ tl (fst (run_item self idx (url, Some []) env))
     = tl (fst (run_item self idx (url, None) env))
  /\ snd (run_item self idx (url, Some []) env)
     = snd (run_item self idx (url, None) env).
Proof.
  split; [reflexivity|].
  unfold run_item, try_body.
  change (progress_hook self (Some []) idx)
    with (progress_hook self None idx).
  destruct (extract_info (progress_hook self None idx) (downloader env))
    as [ev_dl [e|info]]; [split; reflexivity|].
  change (title_of (Some []) info) with (title_of None info).
  destruct (title_of None info) as [e|title]; [split; reflexivity|].
  destruct (to_mp3 self); [|split; reflexivity].
  destruct (convert self idx title _ (transcoder env))
    as [ev2 [e|mp3_file]]; split; reflexivity.
Qed.

End ItemOutcome.

Section Independence.

Import Worker Trace.

Lemma hook_raises_alike (self self' : DownloadThread)
    (filename filename' : option pystr) (idx idx' : nat) (d : HookDict) :
  snd (progress_hook self filename idx d)
  = snd (progress_hook self' filename' idx' d).
Proof.
  unfold progress_hook.
  destruct (pystr_eqb (status d) (u "downloading")).
  - destruct (PyNum.percent_of _ _); reflexivity.
  - destruct (pystr_eqb (status d) (u "finished")); reflexivity.
Qed.

Lemma extract_info_returns_alike
    (hook hook' : HookDict -> list Event * option PyExc)
    (behaviour : Downloader) :
  (forall d, snd (hook d) = snd (hook' d)) ->
  snd (extract_info hook behaviour) = snd (extract_info hook' behaviour).
Proof.
  intros Hh. induction behaviour as [info|e|d next IH];
    cbn [extract_info]; try reflexivity.
  specialize (Hh d).
  destruct (hook d) as [ev raised], (hook' d) as [ev' raised'].
  cbn [snd] in Hh. subst raised'. specialize (IH raised).
  destruct (extract_info hook (next raised)) as [ev1 o1],
           (extract_info hook' (next raised)) as [ev2 o2].
  exact IH.
Qed.

(** X21.  The result string of an item depends on the item alone: on
    its task, on the output directory and the conversion flag, and on
    what downloader and transcoder do for it.  Its position in the
    list, the other tasks, the log file and the cookies file of the
    worker do not enter. *)
Theorem item_result_depends_on_item_only (self self' : DownloadThread)
    (idx idx' : nat) (task : Task) (env env' : ItemEnv) :
  output_dir self = output_dir self' ->
  to_mp3 self = to_mp3 self' ->
  downloader env = downloader env' ->
  transcoder env = transcoder env' ->
  snd (run_item self idx task env) = snd (run_item self' idx' task env').
Proof.
  intros Hdir Hmp3 Hdl Htr. destruct task as [url filename].
  unfold run_item, try_body. rewrite <- Hdir, <- Hmp3, <- Hdl, <- Htr.
  pose proof (extract_info_returns_alike
                (progress_hook self filename idx)
                (progress_hook self' filename idx') (downloader env)
                (hook_raises_alike self self' filename filename idx idx'))
    as Hsame.
  destruct (extract_info (progress_hook self filename idx) (downloader env))
    as [ev1 got1],
    (extract_info (progress_hook self' filename idx') (downloader env))
    as [ev2 got2].
  cbn [snd] in Hsame. subst got2.
  destruct got1 as [e|info]; [reflexivity|].
  destruct (title_of filename info) as [e|title]; [reflexivity|].
  destruct (to_mp3 self); [|reflexivity].
  unfold convert. rewrite <- Hdir.
  destruct (transcoder env) as [e|lines [e|]]; reflexivity.
Qed.

End Independence.

(* ================================================================== *)
(** ** The further theorems at concrete runs *)

Section MoreConcrete.

Import Worker Trace Observe Gui Session Stamp Examples MoreExamples.
Local Open Scope Z_scope.

Lemma plausible_downloads_fine : plausible_downloader downloads_fine.
Proof.
  unfold downloads_fine.
  constructor; [intros _; exists 50, 100; repeat split; lia|].
  intros _. constructor; [intros H; discriminate H|].
  intros _. constructor.
Defined.

Lemma X1_witness :
  status report_half = u "downloading"
  /\ exists p,
       progress_hook three_tasks (Some (u "first")) 1 report_half
       = (ProgressUpdate p (u "Downloading first (1/3)")
          :: log three_tasks (u "Downloading first (1/3)"), None)
       /\ 0 <= p <= 100.
Proof.
  split; [reflexivity|].
  destruct (progress_hook_percent_in_range three_tasks (Some (u "first")) 1
              report_half 50 100 eq_refl eq_refl eq_refl
              ltac:(lia) ltac:(lia)) as (p & Hp & Hr & _).
  exists p. split; [exact Hp|exact Hr].
Defined.

Lemma X2_witness :
  (forall idx, plausible_downloader (downloader (item_env env_fine idx)))
  /\ Forall (fun r : Z * pystr => 0 <= fst r <= 100)
            (progress_reports (fst (run three_tasks env_fine))).
Proof.
  split; [intros idx; exact plausible_downloads_fine|].
  exact (run_percent_in_range three_tasks env_fine
           (fun idx => plausible_downloads_fine)).
Defined.

Lemma X3_witness :
  status report_unknown_size = u "downloading"
  /\ total_bytes report_unknown_size = Some VNone
  /\ downloader item_unknown_size
     = Reports report_unknown_size lets_through
  /\ snd (run_item one_task 1 (u "https://example.com/d", None)
            item_unknown_size)
     = error_text (u "https://example.com/d")
         (Exception
            (u "'>' not supported between instances of 'int' and 'NoneType'")).
Proof.
  repeat (split; [reflexivity|]).
  exact (f_equal snd
           (proj2 (unknown_total_fails_the_item one_task 1
                     (u "https://example.com/d") None item_unknown_size
                     report_unknown_size lets_through
                     eq_refl eq_refl eq_refl eq_refl))).
Defined.

Lemma X5_witness :
  log_file three_tasks = Some session_log
  /\ log_messages
       (item_events three_tasks env_second_fails
          (2%nat, (u "https://example.com/b", None)))
     = [error_log (u "https://example.com/b")
          (Exception (u "ERROR: unable to download video data"))].
Proof.
  split; [reflexivity|].
  exact (log_is_transcript_of_reports three_tasks session_log
           env_second_fails 2 (u "https://example.com/b") None eq_refl).
Defined.

Lemma X7_witness :
  contains app_only_marker (str_of_exc app_only_error) = true
  /\ contains app_only_hint (error_text (u "https://example.com/d")
                               app_only_error) = true.
Proof.
  split; [vm_compute; reflexivity|].
  exact (proj1 (proj1 (proj2 (proj2
           (error_text_keeps_the_exception (u "https://example.com/d")
              app_only_error))) ltac:(vm_compute; reflexivity))).
Defined.

Lemma X8_witness :
  snd (try_body three_tasks 1 (u "https://example.com/a", Some (u "first"))
         item_fine)
  = inr (u "downloads/first.mp4", Some (u "downloads/first.mp3"))
  /\ snd (run_item three_tasks 1
            (u "https://example.com/a", Some (u "first")) item_fine)
     = u "downloads/first.mp4" ++ nl ++ u "downloads/first.mp3".
Proof.
  split; [vm_compute; reflexivity|].
  exact (proj2 (result_names_the_transcoder_files three_tasks 1
                  (u "https://example.com/a") (Some (u "first")) item_fine
                  (u "downloads/first.mp4") (u "downloads/first.mp3")
                  ltac:(vm_compute; reflexivity))).
Defined.

Lemma X9_witness :
  snd (start_download window form_three) = Some three_tasks
  /\ Forall well_formed (tasks three_tasks)
  /\ length (tasks three_tasks) = 3%nat.
Proof.
  assert (H : snd (start_download window form_three) = Some three_tasks)
    by (vm_compute; reflexivity).
  split; [exact H|].
  destruct (started_tasks_well_formed window form_three three_tasks H)
    as (H1 & _ & _).
  split; [exact H1|reflexivity].
Defined.

Lemma X10_witness :
  snd (start_download window form_three) = Some three_tasks
  /\ output_dir three_tasks <> []
  /\ cookies_file three_tasks <> Some [].
Proof.
  assert (H : snd (start_download window form_three) = Some three_tasks)
    by (vm_compute; reflexivity).
  split; [exact H|].
  destruct (started_worker_fields window form_three three_tasks H)
    as (_ & H2 & _ & H4 & _).
  split; [exact H2|exact H4].
Defined.

Lemma X12_witness :
  snd (start_download window form_other)
  = Some {| tasks := [(u "https://example.com/d", None)];
            output_dir := u "videos"; to_mp3 := false;
            cookies_file := None; log_file := Some session_log |}
  /\ bar_settings (click window form_other env_21_megabytes)
     = [((-2147483596)%Z, u "Downloading video (1/1) - -2147483596%")].
Proof.
  assert (H : snd (start_download window form_other)
              = Some {| tasks := [(u "https://example.com/d", None)];
                        output_dir := u "videos"; to_mp3 := false;
                        cookies_file := None;
                        log_file := Some session_log |})
    by (vm_compute; reflexivity).
  split; [exact H|].
  rewrite (proj1 (progress_bar_follows_reports window form_other
                    env_21_megabytes _ H)).
  vm_compute. reflexivity.
Defined.

Lemma X13_witness :
  snd (start_download window form_three) = Some three_tasks
  /\ makedirs_error env_no_directory
     = Some (Exception (u "[Errno 13] Permission denied: 'downloads'"))
  /\ click window form_three env_no_directory
     = [ProgressDialogShown; Makedirs (u "downloads")].
Proof.
  assert (H : snd (start_download window form_three) = Some three_tasks)
    by (vm_compute; reflexivity).
  split; [exact H|]. split; [reflexivity|].
  exact (proj1 (click_when_makedirs_fails window form_three
                  env_no_directory three_tasks _ H eq_refl)).
Defined.


Lemma X16_witness :
  Spec.blank (u " /home/me/videos ") = false
  /\ snd (start_download window
            (browse_folder form_other (u " /home/me/videos ")))
     = Some {| tasks := [(u "https://example.com/d", None)];
               output_dir := u "/home/me/videos"; to_mp3 := false;
               cookies_file := None; log_file := Some session_log |}
  /\ u "/home/me/videos" = strip (u " /home/me/videos ").
Proof.
  split; [reflexivity|]. split; [vm_compute; reflexivity|].
  exact (proj1 (proj2 (proj2
           (browse_then_start window form_other (u " /home/me/videos ")
              {| tasks := [(u "https://example.com/d", None)];
                 output_dir := u "/home/me/videos"; to_mp3 := false;
                 cookies_file := None; log_file := Some session_log |})))
           eq_refl ltac:(vm_compute; reflexivity)).
Defined.

Lemma X17_witness :
  truthy (u "first") = true
  /\ snd (try_body three_tasks 1 (u "https://example.com/a", Some (u "first"))
            item_fine)
     = inr (u "downloads/first.mp4", Some (u "downloads/first.mp3"))
  /\ outtmpl (ydl_opts three_tasks (Some (u "first")) 1 false)
     = os_path_join (u "downloads") (u "first" ++ u ".") ++ u "%(ext)s".
Proof.
  split; [reflexivity|]. split; [vm_compute; reflexivity|].
  exact (proj1 (named_task_paths_follow_template three_tasks 1
                  (u "https://example.com/a") (u "first") item_fine
                  (u "downloads/first.mp4") (Some (u "downloads/first.mp3"))
                  eq_refl ltac:(vm_compute; reflexivity))).
Defined.

Lemma X18_witness :
  valid morning /\ valid morning_later
  /\ same_second morning morning_later
  /\ log_path (app_log_file (snd (init morning)))
     = log_path (app_log_file (snd (init morning_later))).
Proof.
  assert (H1 : valid morning) by (vm_compute; repeat split; congruence).
  assert (H2 : valid morning_later)
    by (vm_compute; repeat split; congruence).
  assert (H3 : same_second morning morning_later)
    by (repeat split; reflexivity).
  repeat (split; [assumption|]).
  exact (proj2 (proj1 (log_path_same_iff_same_second morning morning_later
                         H1 H2)) H3).
Defined.

Lemma X19_witness :
  truthy_opt None = false
  /\ snd (extract_info (progress_hook one_task None 1)
            (downloader item_fine))
     = inr (InfoDict (Some (u "Some Title")))
  /\ forall mp4_file mp3_file,
       snd (try_body one_task 1 (u "https://example.com/d", None) item_fine)
       = inr (mp4_file, mp3_file) ->
       mp4_file = os_path_join (u "videos") (u "Some Title" ++ u ".mp4").
Proof.
  split; [reflexivity|]. split; [reflexivity|].
  exact (unnamed_task_title_fallback one_task 1 (u "https://example.com/d")
           None item_fine (InfoDict (Some (u "Some Title")))
           eq_refl eq_refl).
Defined.

Lemma X21_witness :
  output_dir three_tasks = output_dir (without_cookies three_tasks)
  /\ to_mp3 three_tasks = to_mp3 (without_cookies three_tasks)
  /\ snd (run_item three_tasks 1
            (u "https://example.com/a", Some (u "first")) item_fine)
     = snd (run_item (without_cookies three_tasks) 3
              (u "https://example.com/a", Some (u "first")) item_fine).
Proof.
  split; [reflexivity|]. split; [reflexivity|].
  exact (item_result_depends_on_item_only three_tasks
           (without_cookies three_tasks) 1 3
           (u "https://example.com/a", Some (u "first")) item_fine item_fine
           eq_refl eq_refl eq_refl eq_refl).
Defined.

End MoreConcrete.
